(** * sso-proxy configuration: defaults, validation cascade and loader

    A shallow embedding of [internal/proxy/configuration.go].  Go strings are
    byte strings ([string]), [int] and [time.Duration] are [Z], [error] is the
    text returned by [Error()], and a [nil] error is [None]. *)

From Stdlib Require Import ZArith List String Ascii Bool Lia DecimalString DecimalZ DecimalPos.
From Stdlib Require Import Strings.Byte Floats.SpecFloat.
Import ListNotations.

Local Open Scope string_scope.
Local Open Scope Z_scope.

(** ** Values of the Go language used by the package *)

(** [error]: only the message is ever observed by the validators. *)
Definition error := string.

(** A Go slice: [None] is the nil slice, [Some []] an empty, non-nil one
    ([reflect.DeepEqual] tells them apart). *)
Definition slice (A : Type) := option (list A).

Module time.
Definition Duration := Z.
Definition Nanosecond : Duration := 1.
Definition Microsecond : Duration := 1000 * Nanosecond.
Definition Millisecond : Duration := 1000 * Microsecond.
Definition Second : Duration := 1000 * Millisecond.
Definition Minute : Duration := 60 * Second.
Definition Hour : Duration := 60 * Minute.
End time.

(** ** [strconv.Itoa], used by the [%d] verb *)
Module strconv.
Definition Itoa (n : Z) : string := NilZero.string_of_int (Z.to_int n).
End strconv.

(** ** [encoding/base64]: [StdEncoding.DecodeString]

    The standard alphabet with [=] padding, not strict: carriage returns and
    line feeds are skipped, and the first offending byte is reported by its
    index. *)
Module base64.

Definition encodeStd : string :=
  "ABCDEFGHIJKLMNOPQRSTUVWXYZabcdefghijklmnopqrstuvwxyz0123456789+/".

Definition StdPadding : ascii := "="%char.

Fixpoint index_from (c : ascii) (alphabet : string) (i : N) : option N :=
  match alphabet with
  | EmptyString => None
  | String a rest =>
      if Ascii.eqb a c then Some i else index_from c rest (N.succ i)
  end.

(** [enc.decodeMap[in]], with [None] for the 0xff entries. *)
Definition decodeMap (c : ascii) : option N := index_from c encodeStd 0%N.

(** [CorruptInputError(n)]: the index of the offending input byte. *)
Inductive CorruptInputError : Type := CorruptInput (at_byte : Z).

Definition CorruptInputError_Error (e : CorruptInputError) : string :=
  match e with
  | CorruptInput n => "illegal base64 data at input byte " ++ strconv.Itoa n
  end.

Definition is_newline (c : ascii) : bool :=
  Ascii.eqb c "010"%char || Ascii.eqb c "013"%char.

(** [for si < len(src) && (src[si] == '\n' || src[si] == '\r') { si++ }] *)
Fixpoint skip_newlines (src : list ascii) (si : Z) : list ascii * Z :=
  match src with
  | c :: rest => if is_newline c then skip_newlines rest (si + 1) else (src, si)
  | [] => (src, si)
  end.

Definition sextet (dbuf : list N) (i : nat) : N := nth i dbuf 0%N.

Definition to_byte (n : N) : byte := byte_of_ascii (ascii_of_N n).

(** The tail of [decodeQuantum]: four 6-bit groups become three bytes, of
    which [dlen - 1] are kept. *)
Definition assemble (dbuf : list N) (dlen : nat) : list byte :=
  let val := N.lor (N.lor (N.shiftl (sextet dbuf 0) 18) (N.shiftl (sextet dbuf 1) 12))
                   (N.lor (N.shiftl (sextet dbuf 2) 6) (sextet dbuf 3)) in
  firstn (dlen - 1)
    [to_byte (N.shiftr val 16); to_byte (N.shiftr val 8); to_byte val].

(** What is left to check once the padding of a quantum has been read:
    newlines are skipped and anything after them is trailing garbage. *)
Definition after_padding (src : list ascii) (si : Z) : option CorruptInputError :=
  let '(src', si') := skip_newlines src si in
  match src' with
  | [] => None
  | _ :: _ => Some (CorruptInput si')
  end.

(** [Decode]: the loop over [decodeQuantum], as one pass over the input.
    [si] is the index of the head of [src], [j] the number of groups read
    in the current quantum ([dbuf]), [dst] the bytes written so far. *)
Fixpoint decode (src : list ascii) (si : Z) (j : nat) (dbuf : list N)
                (dst : list byte) : list byte * option CorruptInputError :=
  match src with
  | [] =>
      match j with
      | O => (dst, None)
      | _ => (dst, Some (CorruptInput (si - Z.of_nat j)))
      end
  | c :: rest =>
      let si := si + 1 in
      match decodeMap c with
      | Some out =>
          let dbuf := (dbuf ++ [out])%list in
          match j with
          | 3%nat => decode rest si 0 [] (dst ++ assemble dbuf 4)%list
          | _ => decode rest si (S j) dbuf dst
          end
      | None =>
          if is_newline c then decode rest si j dbuf dst
          else if negb (Ascii.eqb c StdPadding) then
            (dst, Some (CorruptInput (si - 1)))
          else
            match j with
            | 0%nat | 1%nat => (dst, Some (CorruptInput (si - 1)))
            | 2%nat =>
                let '(src', si') := skip_newlines rest si in
                match src' with
                | [] => (dst, Some (CorruptInput si'))
                | c' :: rest' =>
                    if negb (Ascii.eqb c' StdPadding) then
                      (dst, Some (CorruptInput (si' - 1)))
                    else
                      ((dst ++ assemble dbuf 2)%list,
                       after_padding rest' (si' + 1))
                end
            | _ => ((dst ++ assemble dbuf j)%list, after_padding rest si)
            end
      end
  end.

Definition DecodeString (s : string) : list byte * option CorruptInputError :=
  decode (list_ascii_of_string s) 0 0 [] [].

End base64.

(** ** [net/http]: the validity check behind [Cookie.String] *)
Module http.

(** [httpguts.isTokenTable]: the bytes allowed in an RFC 7230 token. *)
Definition isTokenTable : string :=
  "!#$%&'*+-.0123456789ABCDEFGHIJKLMNOPQRSTUVWXYZ^_`abcdefghijklmnopqrstuvwxyz|~".

Definition IsTokenRune (c : ascii) : bool :=
  match base64.index_from c isTokenTable 0%N with
  | Some _ => true
  | None => false
  end.

Fixpoint all_token (raw : string) : bool :=
  match raw with
  | EmptyString => true
  | String c rest => IsTokenRune c && all_token rest
  end.

(** [isCookieNameValid]: non-empty, and no byte outside the token table
    (a byte above 0x7f is part of a rune that is not a token either). *)
Definition isCookieNameValid (raw : string) : bool :=
  if String.eqb raw "" then false else all_token raw.

(** A cookie whose only set field is [Name], as built by the validator. *)
Record Cookie : Type := { Name : string }.

(** [Cookie.String] on such a cookie: empty for an invalid name,
    otherwise the name followed by [=] and the (empty) value. *)
Definition Cookie_String (c : Cookie) : string :=
  if negb (isCookieNameValid (Name c)) then "" else Name c ++ "=".

End http.

(** ** [net/url]: the parsed form of a URL *)
Module url.

Record URL : Type := {
  Scheme : string;
  Opaque : string;
  Host : string;
  Path : string;
  RawQuery : string;
  Fragment : string
}.

End url.

(** ** Decoded key/value data, as [conf.Map()] hands it to the decoder

    The values of a [map[string]interface{}] read back from JSON.  A Go map
    is kept as an association list, whose order stands for the iteration
    order of the map. *)
#[warnings="-register-all"]
Inductive Value : Type :=
| VNil
| VBool (b : bool)
| VNumber (f : SpecFloat.spec_float)
| VString (s : string)
| VArray (vs : list Value)
| VMap (m : list (string * Value)).

(** [reflect.Kind.String()] of a decoded value. *)
Definition kind_name (v : Value) : string :=
  match v with
  | VNil => "invalid"
  | VBool _ => "bool"
  | VNumber _ => "float64"
  | VString _ => "string"
  | VArray _ => "slice"
  | VMap _ => "map"
  end.

(** ** What the file takes from outside [configuration.go]

    One type declared elsewhere in the package, and the library calls whose
    result depends on the library version or on the machine: they are
    parameters of the whole development. *)
Class Externals : Type := {
  (** [UpstreamConfig], declared in another file of package [proxy]. *)
  UpstreamConfig : Type;
  (** [url.Parse]. *)
  url_Parse : string -> url.URL + error;
  (** [os.Open] followed by [Close]: [None] when the file opens. *)
  os_Open : string -> option error;
  (** [strconv.Quote], the [%q] verb. *)
  strconv_Quote : string -> string;
  (** [strings.EqualFold], used by the decoder to match keys. *)
  strings_EqualFold : string -> string -> bool;
  (** The decoder's conversions into fields of basic kinds, decode hooks
      included: field name, input, current value; new value and errors. *)
  decodeString : string -> Value -> string -> string * list string;
  decodeBool : string -> Value -> bool -> bool * list string;
  decodeInt : string -> Value -> Z -> Z * list string;
  decodeDuration : string -> Value -> time.Duration -> time.Duration * list string;
  decodeStrings : string -> Value -> slice string -> slice string * list string
}.

(** ** One instance of the externals

    The library calls as Go 1.12 with mapstructure 1.1 performs them, on the
    inputs that need neither Unicode tables nor floating-point arithmetic;
    the instance refuses the other inputs with an error of its own.  It is
    used to run the model on concrete configurations. *)
Module plain.

Definition dquote : string := String "034"%char EmptyString.
Definition backslash : string := String "092"%char EmptyString.

Definition hexdigit (n : N) : ascii :=
  match String.get (N.to_nat n) "0123456789abcdef" with
  | Some c => c
  | None => "0"%char
  end.

(** [strconv.Quote], byte by byte: exact on ASCII text. *)
Definition quote_byte (c : ascii) : string :=
  let n := N_of_ascii c in
  if (n =? 34)%N || (n =? 92)%N then backslash ++ String c EmptyString
  else if (32 <=? n)%N && (n <=? 126)%N then String c EmptyString
  else if (n =? 7)%N then backslash ++ "a"
  else if (n =? 8)%N then backslash ++ "b"
  else if (n =? 12)%N then backslash ++ "f"
  else if (n =? 10)%N then backslash ++ "n"
  else if (n =? 13)%N then backslash ++ "r"
  else if (n =? 9)%N then backslash ++ "t"
  else if (n =? 11)%N then backslash ++ "v"
  else backslash ++ "x" ++ String (hexdigit (N.shiftr n 4))
                             (String (hexdigit (N.land n 15)) EmptyString).

Fixpoint quote_bytes (s : string) : string :=
  match s with
  | EmptyString => EmptyString
  | String c rest => quote_byte c ++ quote_bytes rest
  end.

Definition Quote (s : string) : string := dquote ++ quote_bytes s ++ dquote.

Definition lower (c : ascii) : ascii :=
  let n := N_of_ascii c in
  if (65 <=? n)%N && (n <=? 90)%N then ascii_of_N (n + 32) else c.

(** [strings.EqualFold] on ASCII text. *)
Fixpoint EqualFold (s t : string) : bool :=
  match s, t with
  | EmptyString, EmptyString => true
  | String a s', String b t' => Ascii.eqb (lower a) (lower b) && EqualFold s' t'
  | _, _ => false
  end.

Fixpoint ToLower (s : string) : string :=
  match s with
  | EmptyString => EmptyString
  | String c rest => String (lower c) (ToLower rest)
  end.

Definition is_letter (c : ascii) : bool :=
  let n := N_of_ascii (lower c) in (97 <=? n)%N && (n <=? 122)%N.

Definition is_digit (c : ascii) : bool :=
  let n := N_of_ascii c in (48 <=? n)%N && (n <=? 57)%N.

Fixpoint existsb_string (p : ascii -> bool) (s : string) : bool :=
  match s with
  | EmptyString => false
  | String c rest => p c || existsb_string p rest
  end.

Definition contains (set : string) (c : ascii) : bool :=
  existsb_string (Ascii.eqb c) set.

(** [split(s, c, cutc)]: [s] around the first [c], which goes to neither
    part or stays at the head of the second. *)
Fixpoint split_at (c : ascii) (cutc : bool) (s : string) : string * string :=
  match s with
  | EmptyString => (EmptyString, EmptyString)
  | String a rest =>
      if Ascii.eqb a c then (EmptyString, if cutc then rest else s)
      else let '(l, r) := split_at c cutc rest in (String a l, r)
  end.

(** [getscheme]: [None] for the missing-protocol error. *)
Fixpoint getscheme_from (s : string) (i : nat) : option (option nat) :=
  match s with
  | EmptyString => Some None
  | String c rest =>
      if is_letter c then getscheme_from rest (S i)
      else if is_digit c || contains "+-." c then
        match i with O => Some None | _ => getscheme_from rest (S i) end
      else if Ascii.eqb c ":"%char then
        match i with O => None | _ => Some (Some i) end
      else Some None
  end.

Definition getscheme (rawurl : string) : option (string * string) :=
  match getscheme_from rawurl 0 with
  | None => None
  | Some None => Some (EmptyString, rawurl)
  | Some (Some i) =>
      Some (substring 0 i rawurl,
            substring (S i) (String.length rawurl - S i) rawurl)
  end.

Definition is_ctl (c : ascii) : bool :=
  let n := N_of_ascii c in (n <? 32)%N || (n =? 127)%N.

(** The bytes [unescape] accepts in a host. *)
Definition host_byte (c : ascii) : bool :=
  is_letter c || is_digit c || contains "!$&'()*+,;=:[]<>-_.~" c
  || (N_of_ascii c =? 34)%N || (128 <=? N_of_ascii c)%N.

Fixpoint all_digits (s : string) : bool :=
  match s with
  | EmptyString => true
  | String c rest => is_digit c && all_digits rest
  end.

(** The text after the last colon of [host], when there is one. *)
Fixpoint after_last_colon (host : string) : option string :=
  match host with
  | EmptyString => None
  | String c rest =>
      match after_last_colon rest with
      | Some p => Some p
      | None => if Ascii.eqb c ":"%char then Some rest else None
      end
  end.

Definition parseHost (host : string) : string + error :=
  match after_last_colon host with
  | Some port =>
      if all_digits port then
        if existsb_string (fun c => negb (host_byte c)) host
        then inr "invalid character in host name" else inl host
      else inr "invalid port after host"
  | None =>
      if existsb_string (fun c => negb (host_byte c)) host
      then inr "invalid character in host name" else inl host
  end.

Definition has_prefix (p s : string) : bool := String.eqb (substring 0 (String.length p) s) p.

(** [url.Parse] on URLs without user information, percent escapes or
    bracketed hosts. *)
Definition Parse (rawurl : string) : url.URL + error :=
  if existsb_string (fun c => contains "%@[" c) rawurl then
    inr "plain.Parse: URL outside the supported form"
  else
    let '(u, frag) := split_at "#"%char true rawurl in
    if existsb_string is_ctl u then
      inr ("parse " ++ u ++ ": net/url: invalid control character in URL")
    else if String.eqb u "*" then
      inl {| url.Scheme := ""; url.Opaque := ""; url.Host := ""; url.Path := "*";
             url.RawQuery := ""; url.Fragment := frag |}
    else
      match getscheme u with
      | None => inr ("parse " ++ u ++ ": missing protocol scheme")
      | Some (scheme, rest) =>
          let scheme := ToLower scheme in
          let '(rest, query) := split_at "?"%char true rest in
          if negb (has_prefix "/" rest) && negb (String.eqb scheme "") then
            inl {| url.Scheme := scheme; url.Opaque := rest; url.Host := "";
                   url.Path := ""; url.RawQuery := query; url.Fragment := frag |}
          else if negb (has_prefix "/" rest)
                  && contains (fst (split_at "/"%char true rest)) ":"%char then
            inr ("parse " ++ u ++ ": first path segment in URL cannot contain colon")
          else if (negb (String.eqb scheme "") || negb (has_prefix "///" rest))
                  && has_prefix "//" rest then
            let '(authority, path) :=
              split_at "/"%char false (substring 2 (String.length rest - 2) rest) in
            match parseHost authority with
            | inr err => inr ("parse " ++ u ++ ": " ++ err)
            | inl host =>
                inl {| url.Scheme := scheme; url.Opaque := ""; url.Host := host;
                       url.Path := path; url.RawQuery := query; url.Fragment := frag |}
            end
          else
            inl {| url.Scheme := scheme; url.Opaque := ""; url.Host := "";
                   url.Path := rest; url.RawQuery := query; url.Fragment := frag |}
      end.

Definition maxInt64 : Z := 2 ^ 63 - 1.

(** [leadingInt]: the leading digits of [s], [None] on overflow. *)
Fixpoint leadingInt (s : string) (x : Z) : option (Z * string) :=
  match s with
  | String c rest =>
      if is_digit c then
        if x >? maxInt64 / 10 then None
        else
          let x := x * 10 + (Z.of_N (N_of_ascii c) - 48) in
          if x >? maxInt64 then None else leadingInt rest x
      else Some (x, s)
  | EmptyString => Some (x, s)
  end.

(** The unit: the bytes up to the next digit or period. *)
Fixpoint take_unit (s : string) : string * string :=
  match s with
  | String c rest =>
      if is_digit c || Ascii.eqb c "."%char then (EmptyString, s)
      else let '(u, r) := take_unit rest in (String c u, r)
  | EmptyString => (EmptyString, EmptyString)
  end.

Definition micro1 : string := String "194"%char (String "181"%char "s").
Definition micro2 : string := String "206"%char (String "188"%char "s").

Definition unitMap (u : string) : option Z :=
  if String.eqb u "ns" then Some time.Nanosecond
  else if String.eqb u "us" || String.eqb u micro1 || String.eqb u micro2
       then Some time.Microsecond
  else if String.eqb u "ms" then Some time.Millisecond
  else if String.eqb u "s" then Some time.Second
  else if String.eqb u "m" then Some time.Minute
  else if String.eqb u "h" then Some time.Hour
  else None.

Fixpoint parse_terms (fuel : nat) (orig s : string) (d : Z) : Z + error :=
  match fuel, s with
  | _, EmptyString => inl d
  | O, _ => inr ("time: invalid duration " ++ orig)
  | S fuel, String c _ =>
      if negb (is_digit c) then inr ("time: invalid duration " ++ orig)
      else
        match leadingInt s 0 with
        | None => inr ("time: invalid duration " ++ orig)
        | Some (v, s) =>
            let '(u, s) := take_unit s in
            if String.eqb u "" then inr ("time: missing unit in duration " ++ orig)
            else
              match unitMap u with
              | None => inr ("time: unknown unit " ++ u ++ " in duration " ++ orig)
              | Some unit =>
                  if v >? maxInt64 / unit then inr ("time: invalid duration " ++ orig)
                  else
                    let d := d + v * unit in
                    if d >? maxInt64 then inr ("time: invalid duration " ++ orig)
                    else parse_terms fuel orig s d
              end
        end
  end.

(** [time.ParseDuration] on durations written without fractions. *)
Definition ParseDuration (orig : string) : time.Duration + error :=
  if contains orig "."%char then
    inr "plain.ParseDuration: fraction outside the supported form"
  else
    let '(neg, s) :=
      match orig with
      | String c rest =>
          if Ascii.eqb c "-"%char then (true, rest)
          else if Ascii.eqb c "+"%char then (false, rest)
          else (false, orig)
      | EmptyString => (false, orig)
      end in
    if String.eqb s "0" then inl 0
    else if String.eqb s "" then inr ("time: invalid duration " ++ orig)
    else
      match parse_terms (String.length s) orig s 0 with
      | inl d => inl (if neg then - d else d)
      | inr e => inr e
      end.

(** [dataVal.Type().String()] of a decoded value. *)
Definition type_name (v : Value) : string :=
  match v with
  | VNil => "<nil>"
  | VBool _ => "bool"
  | VNumber _ => "float64"
  | VString _ => "string"
  | VArray _ => "[]interface {}"
  | VMap _ => "map[string]interface {}"
  end.

Definition unconvertible (name expected : string) (input : Value) : string :=
  "'" ++ name ++ "' expected type '" ++ expected
      ++ "', got unconvertible type '" ++ type_name input ++ "'".

Definition decodeString (name : string) (input : Value) (cur : string)
  : string * list string :=
  match input with
  | VString s => (s, [])
  | _ => (cur, [unconvertible name "string" input])
  end.

Definition decodeBool (name : string) (input : Value) (cur : bool)
  : bool * list string :=
  match input with
  | VBool b => (b, [])
  | _ => (cur, [unconvertible name "bool" input])
  end.

(** [int64(f)] on amd64: truncation, and the minimum when out of range. *)
Definition int64_of_float (f : spec_float) : Z :=
  match f with
  | S754_zero _ => 0
  | S754_finite neg m e =>
      let v := if 0 <=? e then Z.pos m * 2 ^ e else Z.pos m / 2 ^ (- e) in
      if v >? maxInt64 then - 2 ^ 63 else if neg then - v else v
  | _ => - 2 ^ 63
  end.

Definition decodeInt_as (type : string) (name : string) (input : Value) (cur : Z)
  : Z * list string :=
  match input with
  | VNumber f => (int64_of_float f, [])
  | _ => (cur, [unconvertible name type input])
  end.

(** [StringToTimeDurationHookFunc], then [decodeInt]. *)
Definition decodeDuration (name : string) (input : Value) (cur : time.Duration)
  : time.Duration * list string :=
  match input with
  | VString s =>
      match ParseDuration s with
      | inl d => (d, [])
      | inr err => (cur, ["error decoding '" ++ name ++ "': " ++ err])
      end
  | _ => decodeInt_as "time.Duration" name input cur
  end.

(** [strings.Split(raw, ",")]. *)
Fixpoint Split (raw : string) : list string :=
  match raw with
  | EmptyString => [EmptyString]
  | String c rest =>
      if Ascii.eqb c ","%char then EmptyString :: Split rest
      else
        match Split rest with
        | w :: ws => String c w :: ws
        | [] => [String c EmptyString]
        end
  end.

Fixpoint decodeElements (name : string) (i : Z) (vs : list Value)
  : list string * list string :=
  match vs with
  | [] => ([], [])
  | v :: rest =>
      let '(x, e1) :=
        match v with
        | VNil => (EmptyString, [])
        | _ => decodeString (name ++ "[" ++ strconv.Itoa i ++ "]") v EmptyString
        end in
      let '(xs, e2) := decodeElements name (i + 1) rest in
      (x :: xs, e1 ++ e2)%list
  end.

(** [StringToSliceHookFunc(",")], then [decodeSlice] into a nil slice, the
    only state the defaults leave a slice in. *)
Definition decodeStrings (name : string) (input : Value) (cur : slice string)
  : slice string * list string :=
  match input with
  | VString s =>
      if String.eqb s "" then (Some [], []) else (Some (Split s), [])
  | VArray vs => let '(xs, es) := decodeElements name 0 vs in (Some xs, es)
  | _ => (cur, ["'" ++ name ++ "': source data must be an array or slice, got "
                    ++ kind_name input])
  end.

(** No file can be opened. *)
Definition Open (name : string) : option error :=
  Some ("open " ++ name ++ ": no such file or directory").

Definition externals : Externals :=
  Build_Externals unit Parse Open Quote EqualFold
    decodeString decodeBool (decodeInt_as "int") decodeDuration decodeStrings.

End plain.

(** ** [xerrors]: the messages of the errors it builds *)
Module xerrors.

(** [xerrors.New(text)]. *)
Definition New (text : string) : error := text.

(** [xerrors.Errorf(prefix ++ ": %w", err)]: the cause is kept and its
    message printed after the prefix. *)
Definition Errorf_w (prefix : string) (err : error) : error :=
  prefix ++ ": " ++ err.

End xerrors.

Section Proxy.

Context `{Ext : Externals}.

(** *** Section types *)

Record TimeoutConfig : Type := {
  Write : time.Duration;
  Read : time.Duration;
  Shutdown : time.Duration
}.

Record ServerConfig : Type := {
  Port : Z;
  Server_TimeoutConfig : TimeoutConfig
}.

Record ProviderConfig : Type := {
  ProviderType : string;
  ProviderSlug : string;
  Scope : string;
  ProviderURLExternal : string;
  ProviderURLInternal : string;
  ProviderSkipAuthPreflight : string
}.

Record CookieConfig : Type := {
  Name : string;
  Secret : string;
  Expire : time.Duration;
  Domain : string;
  Secure : bool;
  HTTPOnly : bool;
  decodedSecret : slice byte
}.

Record TTLConfig : Type := {
  Lifetime : time.Duration;
  Valid : time.Duration;
  GracePeriod : time.Duration
}.

Record SessionConfig : Type := {
  Session_CookieConfig : CookieConfig;
  Session_TTLConfig : TTLConfig
}.

Record ClientConfig : Type := {
  ID : string;
  Client_Secret : string
}.

Record StatsdConfig : Type := {
  Statsd_Port : Z;
  Statsd_Host : string
}.

Record MetricsConfig : Type := {
  Metrics_StatsdConfig : StatsdConfig
}.

Record LoggingConfig : Type := {
  Enable : bool;
  Level : string
}.

Record EmailConfig : Type := {
  AllowedDomains : slice string;
  AllowedAddresses : slice string
}.

Record DefaultConfig : Type := {
  Default_EmailConfig : EmailConfig;
  AllowedGroups : slice string;
  Default_ProviderSlug : string;
  Timeout : time.Duration;
  ResetDeadline : time.Duration
}.

Record UpstreamConfigs : Type := {
  Upstream_DefaultConfig : DefaultConfig;
  ConfigsFile : string;
  testTemplateVars : option (list (string * string));
  upstreamConfigs : slice UpstreamConfig;
  Cluster : string;
  Upstream_Scheme : string
}.

Record RequestSignerConfig : Type := {
  Key : string
}.

Record Configuration : Type := {
  Cfg_ServerConfig : ServerConfig;
  Cfg_ProviderConfig : ProviderConfig;
  Cfg_ClientConfig : ClientConfig;
  Cfg_SessionConfig : SessionConfig;
  Cfg_UpstreamConfigs : UpstreamConfigs;
  Cfg_MetricsConfig : MetricsConfig;
  Cfg_LoggingConfig : LoggingConfig;
  Cfg_RequestSignerConfig : RequestSignerConfig
}.

(** *** [DefaultProxyConfig]

    Fields left out of the Go literal hold the zero value of their type. *)
Definition DefaultProxyConfig (_ : unit) : Configuration := {|
  Cfg_ServerConfig := {|
    Port := 4180;
    Server_TimeoutConfig := {|
      Write := 30 * time.Second;
      Read := 30 * time.Second;
      Shutdown := 30 * time.Second |} |};
  Cfg_ProviderConfig := {|
    ProviderType := "sso";
    ProviderSlug := "google";
    Scope := "";
    ProviderURLExternal := "";
    ProviderURLInternal := "";
    ProviderSkipAuthPreflight := "" |};
  Cfg_ClientConfig := {| ID := ""; Client_Secret := "" |};
  Cfg_SessionConfig := {|
    Session_CookieConfig := {|
      Name := "_sso_proxy";
      Secret := "";
      Expire := 168 * time.Hour;
      Domain := "";
      Secure := true;
      HTTPOnly := true;
      decodedSecret := None |};
    Session_TTLConfig := {|
      Lifetime := 720 * time.Hour;
      Valid := 60 * time.Second;
      GracePeriod := 3 * time.Hour |} |};
  Cfg_UpstreamConfigs := {|
    Upstream_DefaultConfig := {|
      Default_EmailConfig := {| AllowedDomains := None; AllowedAddresses := None |};
      AllowedGroups := None;
      Default_ProviderSlug := "";
      Timeout := 10 * time.Second;
      ResetDeadline := 60 * time.Second |};
    ConfigsFile := "";
    testTemplateVars := None;
    upstreamConfigs := None;
    Cluster := "";
    Upstream_Scheme := "https" |};
  Cfg_MetricsConfig := {|
    Metrics_StatsdConfig := {| Statsd_Port := 8125; Statsd_Host := "localhost" |} |};
  Cfg_LoggingConfig := {| Enable := true; Level := "INFO" |};
  Cfg_RequestSignerConfig := {| Key := "" |}
|}.

(** *** The [Validator] interface and its implementations *)

Class Validator (A : Type) : Type := Validate : A -> option error.

Definition TimeoutConfig_Validate (tc : TimeoutConfig) : option error := None.

Definition ServerConfig_Validate (sc : ServerConfig) : option error :=
  if Port sc =? 0 then Some (xerrors.New "no server.port configured")
  else
    match TimeoutConfig_Validate (Server_TimeoutConfig sc) with
    | Some err => Some (xerrors.Errorf_w "invalid server.timeout config" err)
    | None => None
    end.

Definition ProviderConfig_Validate (pc : ProviderConfig) : option error :=
  if String.eqb (ProviderType pc) "" then
    Some ("invalid provider.type: " ++ strconv_Quote (ProviderType pc))
  else if String.eqb (ProviderSlug pc) "" then
    Some ("invalid provider.slug: " ++ strconv_Quote (ProviderSlug pc))
  else
    let external :=
      if String.eqb (ProviderURLExternal pc) "" then
        Some ("invalid provider.url_external: "
                ++ strconv_Quote (ProviderURLExternal pc))
      else
        match url_Parse (ProviderURLExternal pc) with
        | inr err => Some err
        | inl providerURLExternal =>
            if String.eqb (url.Scheme providerURLExternal) ""
               || String.eqb (url.Host providerURLExternal) ""
            then Some "provider.url_external must include scheme and host"
            else None
        end in
    match external with
    | Some err => Some err
    | None =>
        if String.eqb (ProviderURLInternal pc) "" then
          Some ("invalid provider.url_internal: "
                  ++ strconv_Quote (ProviderURLInternal pc))
        else
          match url_Parse (ProviderURLInternal pc) with
          | inr err =>
              Some ("invalid pc.url_internal configured: " ++ strconv_Quote err)
          | inl providerURLInternal =>
              if String.eqb (url.Scheme providerURLInternal) ""
                 || String.eqb (url.Host providerURLInternal) ""
              then Some "proxy provider url must include scheme and host"
              else None
          end
    end.

(** The body of [CookieConfig.Validate], run on the receiver [cc]: the
    state of the receiver when the method returns, and the error. *)
Definition CookieConfig_Validate_body (cc : CookieConfig)
  : CookieConfig * option error :=
  if String.eqb (Secret cc) "" then
    (cc, Some "no cookie.secret configured")
  else
    let '(decodedCookieSecret, err) := base64.DecodeString (Secret cc) in
    match err with
    | Some e =>
        (cc, Some ("invalid cookie.secret configured; expected base64-encoded bytes, as from `openssl rand 32 -base64`: "
                     ++ strconv_Quote (base64.CorruptInputError_Error e)))
    | None =>
        let len := Z.of_nat (List.length decodedCookieSecret) in
        let validCookieSecretLength :=
          fold_left (fun valid i => if len =? i then true else valid)
                    [32; 64] false in
        if validCookieSecretLength then
          let cc := {| Name := Name cc; Secret := Secret cc; Expire := Expire cc;
                       Domain := Domain cc; Secure := Secure cc;
                       HTTPOnly := HTTPOnly cc;
                       decodedSecret := Some decodedCookieSecret |} in
          let cookie := {| http.Name := Name cc |} in
          if String.eqb (http.Cookie_String cookie) "" then
            (cc, Some ("invalid cc.name: " ++ strconv_Quote (Name cc)))
          else (cc, None)
        else
          (cc, Some ("Invalid value for cookie.secret; must decode to 32 or 64 bytes, but decoded to "
                       ++ strconv.Itoa len ++ " bytes"))
    end.

(** A method call on a value receiver: the body runs on a copy of the
    caller's value; the caller keeps its value and gets the result. *)
Definition call_on_value {S R : Type} (body : S -> S * R) (caller : S) : S * R :=
  let copy := caller in
  (caller, snd (body copy)).

Definition CookieConfig_Validate (cc : CookieConfig) : option error :=
  snd (call_on_value CookieConfig_Validate_body cc).

Definition TTLConfig_Validate (ttlc : TTLConfig) : option error := None.

Definition SessionConfig_Validate (sc : SessionConfig) : option error :=
  match CookieConfig_Validate (Session_CookieConfig sc) with
  | Some err => Some (xerrors.Errorf_w "invalid session.cookie config" err)
  | None =>
      match TTLConfig_Validate (Session_TTLConfig sc) with
      | Some err => Some (xerrors.Errorf_w "invalid session.ttl config" err)
      | None => None
      end
  end.

Definition ClientConfig_Validate (cc : ClientConfig) : option error :=
  if String.eqb (ID cc) "" then Some "no client.id configured"
  else if String.eqb (Client_Secret cc) "" then Some "no client.secret configured"
  else None.

Definition StatsdConfig_Validate (sc : StatsdConfig) : option error :=
  if String.eqb (Statsd_Host sc) "" then Some (xerrors.New "no statsd.host configured")
  else if Statsd_Port sc =? 0 then Some (xerrors.New " no statsd.port configured")
  else None.

Definition MetricsConfig_Validate (mc : MetricsConfig) : option error :=
  match StatsdConfig_Validate (Metrics_StatsdConfig mc) with
  | Some err => Some (xerrors.Errorf_w "invalid metrics.statsd config" err)
  | None => None
  end.

Definition LoggingConfig_Validate (lc : LoggingConfig) : option error := None.

Definition UpstreamConfigs_Validate (uc : UpstreamConfigs) : option error :=
  let opened :=
    if negb (String.eqb (ConfigsFile uc) "") then
      match os_Open (ConfigsFile uc) with
      | Some err => Some (xerrors.Errorf_w "invalid upstream.config filepath" err)
      | None => None
      end
    else None in
  match opened with
  | Some err => Some err
  | None =>
      if String.eqb (Cluster uc) "" then
        Some "no upstream.config cluster configured"
      else None
  end.

Definition DefaultConfig_Validate (dc : DefaultConfig) : option error := None.

Definition EmailConfig_Validate (ec : EmailConfig) : option error := None.

Definition RequestSignerConfig_Validate (rsc : RequestSignerConfig)
  : option error := None.

Definition Configuration_Validate (c : Configuration) : option error :=
  match ServerConfig_Validate (Cfg_ServerConfig c) with
  | Some err => Some (xerrors.Errorf_w "invalid server config" err)
  | None =>
  match ProviderConfig_Validate (Cfg_ProviderConfig c) with
  | Some err => Some (xerrors.Errorf_w "invalid provider config" err)
  | None =>
  match SessionConfig_Validate (Cfg_SessionConfig c) with
  | Some err => Some (xerrors.Errorf_w "invalid session config" err)
  | None =>
  match ClientConfig_Validate (Cfg_ClientConfig c) with
  | Some err => Some (xerrors.Errorf_w "invalid session config" err)
  | None =>
  match UpstreamConfigs_Validate (Cfg_UpstreamConfigs c) with
  | Some err => Some (xerrors.Errorf_w "invalid upstream config" err)
  | None =>
  match MetricsConfig_Validate (Cfg_MetricsConfig c) with
  | Some err => Some (xerrors.Errorf_w "invalid metrics config" err)
  | None =>
  match LoggingConfig_Validate (Cfg_LoggingConfig c) with
  | Some err => Some (xerrors.Errorf_w "invalid metrics config" err)
  | None =>
  match RequestSignerConfig_Validate (Cfg_RequestSignerConfig c) with
  | Some err => Some (xerrors.Errorf_w "invalid metrics config" err)
  | None => None
  end end end end end end end end.

(** [var _ Validator = Configuration{}] and the fourteen lines after it. *)
#[local] Instance Configuration_Validator : Validator Configuration :=
  Configuration_Validate.
#[local] Instance ProviderConfig_Validator : Validator ProviderConfig :=
  ProviderConfig_Validate.
#[local] Instance SessionConfig_Validator : Validator SessionConfig :=
  SessionConfig_Validate.
#[local] Instance CookieConfig_Validator : Validator CookieConfig :=
  CookieConfig_Validate.
#[local] Instance TTLConfig_Validator : Validator TTLConfig :=
  TTLConfig_Validate.
#[local] Instance ClientConfig_Validator : Validator ClientConfig :=
  ClientConfig_Validate.
#[local] Instance ServerConfig_Validator : Validator ServerConfig :=
  ServerConfig_Validate.
#[local] Instance TimeoutConfig_Validator : Validator TimeoutConfig :=
  TimeoutConfig_Validate.
#[local] Instance MetricsConfig_Validator : Validator MetricsConfig :=
  MetricsConfig_Validate.
#[local] Instance StatsdConfig_Validator : Validator StatsdConfig :=
  StatsdConfig_Validate.
#[local] Instance LoggingConfig_Validator : Validator LoggingConfig :=
  LoggingConfig_Validate.
#[local] Instance UpstreamConfigs_Validator : Validator UpstreamConfigs :=
  UpstreamConfigs_Validate.
#[local] Instance DefaultConfig_Validator : Validator DefaultConfig :=
  DefaultConfig_Validate.
#[local] Instance EmailConfig_Validator : Validator EmailConfig :=
  EmailConfig_Validate.
#[local] Instance RequestSignerConfig_Validator : Validator RequestSignerConfig :=
  RequestSignerConfig_Validate.

(** *** The decoder

    [mapstructure]'s decoding of a map into a struct, field by field in the
    order of the struct, each field under the name its [mapstructure] tag
    gives it (or the field's own name where the struct has no such tag). *)

(** [dataVal.MapIndex(fieldName)]. *)
Fixpoint MapIndex (m : list (string * Value)) (key : string) : option Value :=
  match m with
  | [] => None
  | (k, v) :: rest => if String.eqb k key then Some v else MapIndex rest key
  end.

(** The slower search: the first key equal to the field name up to case. *)
Fixpoint search_fold (m : list (string * Value)) (fieldName : string)
  : option Value :=
  match m with
  | [] => None
  | (k, v) :: rest =>
      if strings_EqualFold k fieldName then Some v else search_fold rest fieldName
  end.

Definition lookup_field (m : list (string * Value)) (fieldName : string)
  : option Value :=
  match MapIndex m fieldName with
  | Some v => Some v
  | None => search_fold m fieldName
  end.

(** [fmt.Sprintf("%s.%s", name, fieldName)], except at the root. *)
Definition qualify (name fieldName : string) : string :=
  if String.eqb name "" then fieldName else name ++ "." ++ fieldName.

(** [d.decode] into a field of basic kind: a nil input sets nothing. *)
Definition decode_basic {T : Type} (conv : string -> Value -> T -> T * list string)
    (name : string) (input : Value) (cur : T) : T * list string :=
  match input with
  | VNil => (cur, [])
  | _ => conv name input cur
  end.

(** [d.decode] into a field of struct kind: [decodeStruct]. *)
Definition decodeStruct {T : Type}
    (fromMap : string -> list (string * Value) -> T -> T * list string)
    (name : string) (input : Value) (cur : T) : T * list string :=
  match input with
  | VNil => (cur, [])
  | VMap m => fromMap name m cur
  | _ => (cur, ["'" ++ name ++ "' expected a map, got '" ++ kind_name input ++ "'"])
  end.

(** One turn of the loop over the fields in [decodeStructFromMap]: a field
    with no matching key is skipped, any other one is decoded in place and
    its errors are collected. *)
Definition field {T : Type} (dec : string -> Value -> T -> T * list string)
    (name fieldName : string) (m : list (string * Value)) (cur : T)
  : T * list string :=
  match lookup_field m fieldName with
  | None => (cur, [])
  | Some v => dec (qualify name fieldName) v cur
  end.

Definition decode_TimeoutConfig (name : string) (m : list (string * Value))
    (tc : TimeoutConfig) : TimeoutConfig * list string :=
  let '(w, e1) := field (decode_basic decodeDuration) name "write" m (Write tc) in
  let '(r, e2) := field (decode_basic decodeDuration) name "read" m (Read tc) in
  let '(s, e3) := field (decode_basic decodeDuration) name "shutdown" m (Shutdown tc) in
  ({| Write := w; Read := r; Shutdown := s |}, e1 ++ e2 ++ e3)%list.

Definition decode_ServerConfig (name : string) (m : list (string * Value))
    (sc : ServerConfig) : ServerConfig * list string :=
  let '(p, e1) := field (decode_basic decodeInt) name "port" m (Port sc) in
  let '(t, e2) := field (decodeStruct decode_TimeoutConfig) name "timeout" m
                        (Server_TimeoutConfig sc) in
  ({| Port := p; Server_TimeoutConfig := t |}, e1 ++ e2)%list.

Definition decode_ProviderConfig (name : string) (m : list (string * Value))
    (pc : ProviderConfig) : ProviderConfig * list string :=
  let '(ty, e1) := field (decode_basic decodeString) name "type" m (ProviderType pc) in
  let '(sl, e2) := field (decode_basic decodeString) name "slug" m (ProviderSlug pc) in
  let '(sc, e3) := field (decode_basic decodeString) name "scope" m (Scope pc) in
  let '(ue, e4) := field (decode_basic decodeString) name "url_external" m
                         (ProviderURLExternal pc) in
  let '(ui, e5) := field (decode_basic decodeString) name "url_internal" m
                         (ProviderURLInternal pc) in
  let '(sk, e6) := field (decode_basic decodeString) name "skip_auth_preflight" m
                         (ProviderSkipAuthPreflight pc) in
  ({| ProviderType := ty; ProviderSlug := sl; Scope := sc;
      ProviderURLExternal := ue; ProviderURLInternal := ui;
      ProviderSkipAuthPreflight := sk |},
   e1 ++ e2 ++ e3 ++ e4 ++ e5 ++ e6)%list.

Definition decode_ClientConfig (name : string) (m : list (string * Value))
    (cc : ClientConfig) : ClientConfig * list string :=
  let '(i, e1) := field (decode_basic decodeString) name "id" m (ID cc) in
  let '(s, e2) := field (decode_basic decodeString) name "secret" m (Client_Secret cc) in
  ({| ID := i; Client_Secret := s |}, e1 ++ e2)%list.

(** [decodedSecret] is unexported: the decoder cannot set it. *)
Definition decode_CookieConfig (name : string) (m : list (string * Value))
    (cc : CookieConfig) : CookieConfig * list string :=
  let '(n, e1) := field (decode_basic decodeString) name "name" m (Name cc) in
  let '(s, e2) := field (decode_basic decodeString) name "secret" m (Secret cc) in
  let '(x, e3) := field (decode_basic decodeDuration) name "expire" m (Expire cc) in
  let '(d, e4) := field (decode_basic decodeString) name "domain" m (Domain cc) in
  let '(sec, e5) := field (decode_basic decodeBool) name "secure" m (Secure cc) in
  let '(h, e6) := field (decode_basic decodeBool) name "httponly" m (HTTPOnly cc) in
  ({| Name := n; Secret := s; Expire := x; Domain := d; Secure := sec;
      HTTPOnly := h; decodedSecret := decodedSecret cc |},
   e1 ++ e2 ++ e3 ++ e4 ++ e5 ++ e6)%list.

(** The tag of [GracePeriod] is spelled [mapstructre], so the decoder knows
    the field by its own name. *)
Definition decode_TTLConfig (name : string) (m : list (string * Value))
    (t : TTLConfig) : TTLConfig * list string :=
  let '(l, e1) := field (decode_basic decodeDuration) name "lifetime" m (Lifetime t) in
  let '(v, e2) := field (decode_basic decodeDuration) name "valid" m (Valid t) in
  let '(g, e3) := field (decode_basic decodeDuration) name "GracePeriod" m (GracePeriod t) in
  ({| Lifetime := l; Valid := v; GracePeriod := g |}, e1 ++ e2 ++ e3)%list.

Definition decode_SessionConfig (name : string) (m : list (string * Value))
    (sc : SessionConfig) : SessionConfig * list string :=
  let '(c, e1) := field (decodeStruct decode_CookieConfig) name "cookie" m
                        (Session_CookieConfig sc) in
  let '(t, e2) := field (decodeStruct decode_TTLConfig) name "ttl" m
                        (Session_TTLConfig sc) in
  ({| Session_CookieConfig := c; Session_TTLConfig := t |}, e1 ++ e2)%list.

Definition decode_EmailConfig (name : string) (m : list (string * Value))
    (ec : EmailConfig) : EmailConfig * list string :=
  let '(d, e1) := field (decode_basic decodeStrings) name "domains" m (AllowedDomains ec) in
  let '(a, e2) := field (decode_basic decodeStrings) name "addresses" m (AllowedAddresses ec) in
  ({| AllowedDomains := d; AllowedAddresses := a |}, e1 ++ e2)%list.

Definition decode_DefaultConfig (name : string) (m : list (string * Value))
    (dc : DefaultConfig) : DefaultConfig * list string :=
  let '(e, e1) := field (decodeStruct decode_EmailConfig) name "email" m
                        (Default_EmailConfig dc) in
  let '(g, e2) := field (decode_basic decodeStrings) name "groups" m (AllowedGroups dc) in
  let '(s, e3) := field (decode_basic decodeString) name "slug" m (Default_ProviderSlug dc) in
  let '(t, e4) := field (decode_basic decodeDuration) name "timeout" m (Timeout dc) in
  let '(r, e5) := field (decode_basic decodeDuration) name "resetdeadine" m (ResetDeadline dc) in
  ({| Default_EmailConfig := e; AllowedGroups := g; Default_ProviderSlug := s;
      Timeout := t; ResetDeadline := r |},
   e1 ++ e2 ++ e3 ++ e4 ++ e5)%list.

(** [DefaultConfig] carries no tag; [testTemplateVars] and
    [upstreamConfigs] are unexported and cannot be set. *)
Definition decode_UpstreamConfigs (name : string) (m : list (string * Value))
    (uc : UpstreamConfigs) : UpstreamConfigs * list string :=
  let '(d, e1) := field (decodeStruct decode_DefaultConfig) name "DefaultConfig" m
                        (Upstream_DefaultConfig uc) in
  let '(f, e2) := field (decode_basic decodeString) name "config" m (ConfigsFile uc) in
  let '(c, e3) := field (decode_basic decodeString) name "cluster" m (Cluster uc) in
  let '(s, e4) := field (decode_basic decodeString) name "scheme" m (Upstream_Scheme uc) in
  ({| Upstream_DefaultConfig := d; ConfigsFile := f;
      testTemplateVars := testTemplateVars uc;
      upstreamConfigs := upstreamConfigs uc;
      Cluster := c; Upstream_Scheme := s |},
   e1 ++ e2 ++ e3 ++ e4)%list.

Definition decode_StatsdConfig (name : string) (m : list (string * Value))
    (sc : StatsdConfig) : StatsdConfig * list string :=
  let '(p, e1) := field (decode_basic decodeInt) name "port" m (Statsd_Port sc) in
  let '(h, e2) := field (decode_basic decodeString) name "host" m (Statsd_Host sc) in
  ({| Statsd_Port := p; Statsd_Host := h |}, e1 ++ e2)%list.

Definition decode_MetricsConfig (name : string) (m : list (string * Value))
    (mc : MetricsConfig) : MetricsConfig * list string :=
  let '(s, e1) := field (decodeStruct decode_StatsdConfig) name "statsd" m
                        (Metrics_StatsdConfig mc) in
  ({| Metrics_StatsdConfig := s |}, e1).

Definition decode_LoggingConfig (name : string) (m : list (string * Value))
    (lc : LoggingConfig) : LoggingConfig * list string :=
  let '(e, e1) := field (decode_basic decodeBool) name "enable" m (Enable lc) in
  let '(l, e2) := field (decode_basic decodeString) name "level" m (Level lc) in
  ({| Enable := e; Level := l |}, e1 ++ e2)%list.

Definition decode_RequestSignerConfig (name : string) (m : list (string * Value))
    (rsc : RequestSignerConfig) : RequestSignerConfig * list string :=
  let '(k, e1) := field (decode_basic decodeString) name "key" m (Key rsc) in
  ({| Key := k |}, e1).

(** The tag of [MetricsConfig] is spelled [mapstructrue], so the decoder
    knows the field by its own name. *)
Definition decode_Configuration (name : string) (m : list (string * Value))
    (c : Configuration) : Configuration * list string :=
  let '(sv, e1) := field (decodeStruct decode_ServerConfig) name "server" m
                         (Cfg_ServerConfig c) in
  let '(pr, e2) := field (decodeStruct decode_ProviderConfig) name "provider" m
                         (Cfg_ProviderConfig c) in
  let '(cl, e3) := field (decodeStruct decode_ClientConfig) name "client" m
                         (Cfg_ClientConfig c) in
  let '(se, e4) := field (decodeStruct decode_SessionConfig) name "session" m
                         (Cfg_SessionConfig c) in
  let '(up, e5) := field (decodeStruct decode_UpstreamConfigs) name "upstream" m
                         (Cfg_UpstreamConfigs c) in
  let '(me, e6) := field (decodeStruct decode_MetricsConfig) name "MetricsConfig" m
                         (Cfg_MetricsConfig c) in
  let '(lo, e7) := field (decodeStruct decode_LoggingConfig) name "logging" m
                         (Cfg_LoggingConfig c) in
  let '(rs, e8) := field (decodeStruct decode_RequestSignerConfig) name "requestsigner" m
                         (Cfg_RequestSignerConfig c) in
  ({| Cfg_ServerConfig := sv; Cfg_ProviderConfig := pr; Cfg_ClientConfig := cl;
      Cfg_SessionConfig := se; Cfg_UpstreamConfigs := up; Cfg_MetricsConfig := me;
      Cfg_LoggingConfig := lo; Cfg_RequestSignerConfig := rs |},
   e1 ++ e2 ++ e3 ++ e4 ++ e5 ++ e6 ++ e7 ++ e8)%list.

(** *** [LoadConfig] *)

(** The external key/value source as [LoadConfig] meets it: the outcome of
    [conf.Load(env.NewSource())] and the map [conf.Map()] returns. *)
Record Source : Type := {
  conf_Load : option error;
  conf_Map : list (string * Value)
}.

(** The errors [LoadConfig] can return: the source's own, or the decoder's
    [*mapstructure.Error] with its list of messages. *)
Inductive LoadError : Type :=
| SourceError (err : error)
| DecodeError (Errors : list string).

(** [decoder.Decode(conf.Map())] writes through [Result: &c]: it takes the
    configuration as it stands and returns it as the decoder leaves it.
    [mapstructure.NewDecoder] fails only when [Result] is not a pointer. *)
Definition Decode (input : list (string * Value)) (c : Configuration)
  : Configuration * option LoadError :=
  let '(c', errors) := decode_Configuration "" input c in
  match errors with
  | [] => (c', None)
  | _ :: _ => (c', Some (DecodeError errors))
  end.

Definition LoadConfig (src : Source) : Configuration * option LoadError :=
  let c := DefaultProxyConfig tt in
  match conf_Load src with
  | Some err => (c, Some (SourceError err))
  | None => Decode (conf_Map src) c
  end.

(** *** The keys the decoder knows

    The names under which [decode_Configuration] looks fields up, as a tree:
    a key path of the source is recognized when it leads into this tree. *)
#[warnings="-register-all"]
Inductive Schema : Type :=
| Basic
| Struct (fields : list (string * Schema)).

Definition TimeoutConfig_keys : Schema :=
  Struct [("write", Basic); ("read", Basic); ("shutdown", Basic)].

Definition ServerConfig_keys : Schema :=
  Struct [("port", Basic); ("timeout", TimeoutConfig_keys)].

Definition ProviderConfig_keys : Schema :=
  Struct [("type", Basic); ("slug", Basic); ("scope", Basic);
          ("url_external", Basic); ("url_internal", Basic);
          ("skip_auth_preflight", Basic)].

Definition ClientConfig_keys : Schema :=
  Struct [("id", Basic); ("secret", Basic)].

Definition CookieConfig_keys : Schema :=
  Struct [("name", Basic); ("secret", Basic); ("expire", Basic);
          ("domain", Basic); ("secure", Basic); ("httponly", Basic)].

Definition TTLConfig_keys : Schema :=
  Struct [("lifetime", Basic); ("valid", Basic); ("GracePeriod", Basic)].

Definition SessionConfig_keys : Schema :=
  Struct [("cookie", CookieConfig_keys); ("ttl", TTLConfig_keys)].

Definition EmailConfig_keys : Schema :=
  Struct [("domains", Basic); ("addresses", Basic)].

Definition DefaultConfig_keys : Schema :=
  Struct [("email", EmailConfig_keys); ("groups", Basic); ("slug", Basic);
          ("timeout", Basic); ("resetdeadine", Basic)].

Definition UpstreamConfigs_keys : Schema :=
  Struct [("DefaultConfig", DefaultConfig_keys); ("config", Basic);
          ("cluster", Basic); ("scheme", Basic)].

Definition StatsdConfig_keys : Schema :=
  Struct [("port", Basic); ("host", Basic)].

Definition MetricsConfig_keys : Schema :=
  Struct [("statsd", StatsdConfig_keys)].

Definition LoggingConfig_keys : Schema :=
  Struct [("enable", Basic); ("level", Basic)].

Definition RequestSignerConfig_keys : Schema :=
  Struct [("key", Basic)].

Definition Configuration_keys : Schema :=
  Struct [("server", ServerConfig_keys); ("provider", ProviderConfig_keys);
          ("client", ClientConfig_keys); ("session", SessionConfig_keys);
          ("upstream", UpstreamConfigs_keys); ("MetricsConfig", MetricsConfig_keys);
          ("logging", LoggingConfig_keys);
          ("requestsigner", RequestSignerConfig_keys)].

(** [sets_nothing keys v]: the value [v], met where the decoder expects
    [keys], holds no recognized key: it is nil, or a map none of whose
    entries the decoder would look at, below this point either. *)
Fixpoint sets_nothing (keys : Schema) (v : Value) {struct keys} : bool :=
  match v with
  | VNil => true
  | VMap m =>
      match keys with
      | Basic => false
      | Struct fields =>
          forallb (fun f => let '(fieldName, sub) := f in
                            match lookup_field m fieldName with
                            | None => true
                            | Some v' => sets_nothing sub v'
                            end) fields
      end
  | _ => false
  end.

(** The names of the sections at the root, and whether a key of the source
    is taken for one of them: equal to it, or equal up to case. *)
Definition section_names : list string :=
  ["server"; "provider"; "client"; "session"; "upstream"; "MetricsConfig";
   "logging"; "requestsigner"].

Definition names_a_section (key : string) : bool :=
  existsb (fun fieldName =>
             String.eqb key fieldName || strings_EqualFold key fieldName)
          section_names.

(** Whether the entry a field would be read from, if any, sets nothing. *)
Definition key_sets_nothing (sub : Schema) (m : list (string * Value))
    (fieldName : string) : bool :=
  match lookup_field m fieldName with
  | None => true
  | Some v => sets_nothing sub v
  end.

End Proxy.

(** ** The configurations of the test-suite *)
Module tests.

#[local] Existing Instance plain.externals.

(** ["config validation should pass"]. *)
Definition passing : Configuration := {|
  Cfg_ServerConfig := {|
    Port := 4180;
    Server_TimeoutConfig := {|
      Write := 30 * time.Second;
      Read := 30 * time.Second;
      Shutdown := 30 * time.Second |} |};
  Cfg_ProviderConfig := {|
    ProviderType := "sso";
    ProviderSlug := "google";
    Scope := "test";
    ProviderURLExternal := "https://sso-external.com";
    ProviderURLInternal := "https://sso-internal.com";
    ProviderSkipAuthPreflight := "" |};
  Cfg_ClientConfig := {| ID := "foo-id"; Client_Secret := "bar-secret" |};
  Cfg_SessionConfig := {|
    Session_CookieConfig := {|
      Name := "_sso_proxy";
      Secret := "SMoPfinxNz0fuaGFPUr5vwQpvoG+CGcLd2nkxRVI+H4=";
      Expire := 168 * time.Hour;
      Domain := "";
      Secure := true;
      HTTPOnly := true;
      decodedSecret := None |};
    Session_TTLConfig := {|
      Lifetime := 720 * time.Hour;
      Valid := 60 * time.Second;
      GracePeriod := 3 * time.Hour |} |};
  Cfg_UpstreamConfigs := {|
    Upstream_DefaultConfig := {|
      Default_EmailConfig := {| AllowedDomains := None; AllowedAddresses := None |};
      AllowedGroups := None;
      Default_ProviderSlug := "";
      Timeout := 10 * time.Second;
      ResetDeadline := 60 * time.Second |};
    ConfigsFile := "";
    testTemplateVars := None;
    upstreamConfigs := None;
    Cluster := "foo-cluster";
    Upstream_Scheme := "https" |};
  Cfg_MetricsConfig := {|
    Metrics_StatsdConfig := {| Statsd_Port := 8125; Statsd_Host := "localhost" |} |};
  Cfg_LoggingConfig := {| Enable := true; Level := "INFO" |};
  Cfg_RequestSignerConfig := {| Key := "" |}
|}.

(** ["missing server.port configuration"]: only the server timeouts are
    set, every other field holds its zero value. *)
Definition missing_port : Configuration := {|
  Cfg_ServerConfig := {|
    Port := 0;
    Server_TimeoutConfig := {|
      Write := 30 * time.Second;
      Read := 30 * time.Second;
      Shutdown := 30 * time.Second |} |};
  Cfg_ProviderConfig := {|
    ProviderType := ""; ProviderSlug := ""; Scope := "";
    ProviderURLExternal := ""; ProviderURLInternal := "";
    ProviderSkipAuthPreflight := "" |};
  Cfg_ClientConfig := {| ID := ""; Client_Secret := "" |};
  Cfg_SessionConfig := {|
    Session_CookieConfig := {|
      Name := ""; Secret := ""; Expire := 0; Domain := "";
      Secure := false; HTTPOnly := false; decodedSecret := None |};
    Session_TTLConfig := {| Lifetime := 0; Valid := 0; GracePeriod := 0 |} |};
  Cfg_UpstreamConfigs := {|
    Upstream_DefaultConfig := {|
      Default_EmailConfig := {| AllowedDomains := None; AllowedAddresses := None |};
      AllowedGroups := None; Default_ProviderSlug := "";
      Timeout := 0; ResetDeadline := 0 |};
    ConfigsFile := ""; testTemplateVars := None; upstreamConfigs := None;
    Cluster := ""; Upstream_Scheme := "" |};
  Cfg_MetricsConfig := {|
    Metrics_StatsdConfig := {| Statsd_Port := 0; Statsd_Host := "" |} |};
  Cfg_LoggingConfig := {| Enable := false; Level := "" |};
  Cfg_RequestSignerConfig := {| Key := "" |}
|}.

(** The passing configuration with its client id removed. *)
Definition missing_client_id : Configuration := {|
  Cfg_ServerConfig := Cfg_ServerConfig passing;
  Cfg_ProviderConfig := Cfg_ProviderConfig passing;
  Cfg_ClientConfig := {| ID := ""; Client_Secret := "bar-secret" |};
  Cfg_SessionConfig := Cfg_SessionConfig passing;
  Cfg_UpstreamConfigs := Cfg_UpstreamConfigs passing;
  Cfg_MetricsConfig := Cfg_MetricsConfig passing;
  Cfg_LoggingConfig := Cfg_LoggingConfig passing;
  Cfg_RequestSignerConfig := Cfg_RequestSignerConfig passing
|}.

(** A cookie section with the given name and secret. *)
Definition cookie (name secret : string) : CookieConfig := {|
  Name := name; Secret := secret; Expire := 168 * time.Hour; Domain := "";
  Secure := true; HTTPOnly := true; decodedSecret := None |}.

(** The 44-character secret of the passing configuration: 32 bytes. *)
Definition secret32 : string := "SMoPfinxNz0fuaGFPUr5vwQpvoG+CGcLd2nkxRVI+H4=".

(** Sixteen zero bytes, in base64. *)
Definition secret16 : string := "AAAAAAAAAAAAAAAAAAAAAA==".

(** A provider section with the given external URL. *)
Definition provider (external : string) : ProviderConfig := {|
  ProviderType := "sso"; ProviderSlug := "google"; Scope := "test";
  ProviderURLExternal := external;
  ProviderURLInternal := "https://sso-internal.com";
  ProviderSkipAuthPreflight := "" |}.

(** A source that overrides the provider slug and gives the client section
    a string where a map is expected. *)
Definition failing_source : Source := {|
  conf_Load := None;
  conf_Map := [("provider", VMap [("slug", VString "foo-slug")]);
               ("client", VString "x")]
|}.

(** A source that cannot be read. *)
Definition unreadable_source : Source := {|
  conf_Load := Some "source: read failed";
  conf_Map := []
|}.

(** No key at all. *)
Definition empty_source : Source := {| conf_Load := None; conf_Map := [] |}.

(** The keys of an ordinary process environment, and a [metrics] key. *)
Definition ambient_source : Source := {|
  conf_Load := None;
  conf_Map := [("path", VString "/usr/bin"); ("home", VString "/root");
               ("metrics", VMap [("statsd", VMap [("host", VString "h")])])]
|}.

(** The sources of [TestEnvironmentOverridesConfiguration], as maps. *)
Definition cookie_name_source : Source := {|
  conf_Load := None;
  conf_Map := [("session", VMap [("cookie",
                  VMap [("name", VString "foo_cookie_name")])])]
|}.

Definition timeouts_source : Source := {|
  conf_Load := None;
  conf_Map := [("server", VMap [("timeout",
                  VMap [("write", VString "60s"); ("read", VString "60s")])])]
|}.

(** A source whose keys the decoder does not know. *)
Definition foreign_source : Source := {|
  conf_Load := None;
  conf_Map := [("path", VString "/usr/bin"); ("home", VString "/root");
               ("metrics", VMap [("statsd", VMap [("host", VString "h")])]);
               ("server", VMap [("unknown", VString "1")])]
|}.

(** The passing configuration with other timeouts, TTLs, logging, scope,
    cookie attributes and signing key. *)
Definition quiet : Configuration := {|
  Cfg_ServerConfig := {|
    Port := 4180;
    Server_TimeoutConfig := {| Write := 0; Read := 0; Shutdown := 0 |} |};
  Cfg_ProviderConfig := {|
    ProviderType := "sso";
    ProviderSlug := "google";
    Scope := "";
    ProviderURLExternal := "https://sso-external.com";
    ProviderURLInternal := "https://sso-internal.com";
    ProviderSkipAuthPreflight := "true" |};
  Cfg_ClientConfig := {| ID := "foo-id"; Client_Secret := "bar-secret" |};
  Cfg_SessionConfig := {|
    Session_CookieConfig := {|
      Name := "_sso_proxy";
      Secret := secret32;
      Expire := 0;
      Domain := "example.com";
      Secure := false;
      HTTPOnly := false;
      decodedSecret := None |};
    Session_TTLConfig := {| Lifetime := 0; Valid := 0; GracePeriod := 0 |} |};
  Cfg_UpstreamConfigs := {|
    Upstream_DefaultConfig := {|
      Default_EmailConfig := {|
        AllowedDomains := Some ["example.com"]; AllowedAddresses := None |};
      AllowedGroups := Some [];
      Default_ProviderSlug := "okta";
      Timeout := 0;
      ResetDeadline := 0 |};
    ConfigsFile := "";
    testTemplateVars := None;
    upstreamConfigs := None;
    Cluster := "foo-cluster";
    Upstream_Scheme := "http" |};
  Cfg_MetricsConfig := {|
    Metrics_StatsdConfig := {| Statsd_Port := 8125; Statsd_Host := "localhost" |} |};
  Cfg_LoggingConfig := {| Enable := false; Level := "" |};
  Cfg_RequestSignerConfig := {| Key := "some key" |}
|}.

(** A client section, an upstream section and a metrics section with the
    given fields. *)
Definition client (id secret : string) : ClientConfig :=
  {| ID := id; Client_Secret := secret |}.

Definition upstream (file cluster : string) : UpstreamConfigs := {|
  Upstream_DefaultConfig := Upstream_DefaultConfig (Cfg_UpstreamConfigs passing);
  ConfigsFile := file;
  testTemplateVars := None;
  upstreamConfigs := None;
  Cluster := cluster;
  Upstream_Scheme := "https" |}.

Definition metrics (host : string) (port : Z) : MetricsConfig :=
  {| Metrics_StatsdConfig := {| Statsd_Port := port; Statsd_Host := host |} |}.

(** A provider section with the given URLs. *)
Definition provider_urls (external internal : string) : ProviderConfig := {|
  ProviderType := "sso"; ProviderSlug := "google"; Scope := "";
  ProviderURLExternal := external; ProviderURLInternal := internal;
  ProviderSkipAuthPreflight := "" |}.


(** Entries that set the provider slug and the write timeout, and the
    value of a [metrics] entry. *)
Definition slug_entries : list (string * Value) :=
  [("provider", VMap [("slug", VString "foo-slug")])].

Definition timeout_entries : list (string * Value) :=
  [("server", VMap [("timeout", VMap [("write", VString "60s")])])].

Definition statsd_entry : Value :=
  VMap [("statsd", VMap [("host", VString "h")])].

End tests.

(** * Properties *)

Section Properties.

Context `{Ext : Externals}.

(** C2: a configuration whose server port is zero fails validation with
    exactly "invalid server config: no server.port configured", whatever the
    other sections hold: any configuration with the same server section gets
    the same result. *)
Theorem Validate_zero_port :
  forall c : Configuration,
    Port (Cfg_ServerConfig c) = 0 ->
    Configuration_Validate c
      = Some "invalid server config: no server.port configured"
    /\ forall c' : Configuration,
         Cfg_ServerConfig c' = Cfg_ServerConfig c ->
         Configuration_Validate c' = Configuration_Validate c.
Proof.
  intros c Hport.
  assert (forall d, Port (Cfg_ServerConfig d) = 0 ->
            Configuration_Validate d
              = Some "invalid server config: no server.port configured") as Hzero.
  { intros d Hd. unfold Configuration_Validate, ServerConfig_Validate.
    rewrite Hd. reflexivity. }
  split.
  - apply Hzero, Hport.
  - intros c' Hsame. rewrite (Hzero c Hport). apply Hzero.
    rewrite Hsame. exact Hport.
Qed.

(** C5: the defaults do not pass validation: the provider section, whose
    external URL is left empty, is rejected. *)
Theorem DefaultProxyConfig_invalid :
  Configuration_Validate (DefaultProxyConfig tt)
    = Some ("invalid provider config: invalid provider.url_external: "
              ++ strconv_Quote "")
  /\ Configuration_Validate (DefaultProxyConfig tt) <> None.
Proof.
  split; [reflexivity | discriminate].
Qed.

(** C7: [DefaultProxyConfig] takes no argument, returns the documented
    defaults, and returns the same value at every call. *)
Theorem DefaultProxyConfig_values :
  let c := DefaultProxyConfig tt in
  Port (Cfg_ServerConfig c) = 4180
  /\ Write (Server_TimeoutConfig (Cfg_ServerConfig c)) = 30 * time.Second
  /\ Read (Server_TimeoutConfig (Cfg_ServerConfig c)) = 30 * time.Second
  /\ Shutdown (Server_TimeoutConfig (Cfg_ServerConfig c)) = 30 * time.Second
  /\ Expire (Session_CookieConfig (Cfg_SessionConfig c)) = 168 * time.Hour
  /\ Lifetime (Session_TTLConfig (Cfg_SessionConfig c)) = 720 * time.Hour
  /\ Valid (Session_TTLConfig (Cfg_SessionConfig c)) = 60 * time.Second
  /\ GracePeriod (Session_TTLConfig (Cfg_SessionConfig c)) = 3 * time.Hour
  /\ Upstream_Scheme (Cfg_UpstreamConfigs c) = "https"
  /\ Timeout (Upstream_DefaultConfig (Cfg_UpstreamConfigs c)) = 10 * time.Second
  /\ ResetDeadline (Upstream_DefaultConfig (Cfg_UpstreamConfigs c)) = 60 * time.Second
  /\ Statsd_Host (Metrics_StatsdConfig (Cfg_MetricsConfig c)) = "localhost"
  /\ Statsd_Port (Metrics_StatsdConfig (Cfg_MetricsConfig c)) = 8125
  /\ Enable (Cfg_LoggingConfig c) = true
  /\ Level (Cfg_LoggingConfig c) = "INFO"
  /\ time.Second = 1000000000
  /\ time.Hour = 3600 * time.Second
  /\ forall first second : unit,
       DefaultProxyConfig first = DefaultProxyConfig second.
Proof.
  repeat split.
Qed.

(** *** The cookie section *)

Lemma Itoa_decimal (n : Z) :
  option_map Z.of_int (NilZero.int_of_string (strconv.Itoa n)) = Some n.
Proof.
  unfold strconv.Itoa.
  rewrite NilZero.isi.
  - simpl. now rewrite DecimalZ.of_to.
  - destruct n; simpl; try discriminate.
    intros [= H]. now apply Unsigned.to_uint_nonnil in H.
  - destruct n; simpl; try discriminate.
    intros [= H]. now apply Unsigned.to_uint_nonnil in H.
Qed.

Lemma eqb_empty_false (s : string) : s <> "" -> String.eqb s "" = false.
Proof.
  intros H. now apply String.eqb_neq.
Qed.

Lemma Cookie_String_empty (name : string) :
  String.eqb (http.Cookie_String {| http.Name := name |}) ""
    = negb (http.isCookieNameValid name).
Proof.
  unfold http.Cookie_String. simpl.
  destruct (http.isCookieNameValid name); simpl; [ | reflexivity].
  destruct name; reflexivity.
Qed.

(** The receiver when [CookieConfig.Validate] returns, and its result, by
    the stage at which the method returns. *)
Lemma body_empty_secret (cc : CookieConfig) :
  Secret cc = "" ->
  CookieConfig_Validate_body cc = (cc, Some "no cookie.secret configured").
Proof.
  intros H. unfold CookieConfig_Validate_body. now rewrite H.
Qed.

Lemma body_corrupt_secret (cc : CookieConfig) bs e :
  Secret cc <> "" ->
  base64.DecodeString (Secret cc) = (bs, Some e) ->
  CookieConfig_Validate_body cc
    = (cc, Some ("invalid cookie.secret configured; expected base64-encoded bytes, as from `openssl rand 32 -base64`: "
                   ++ strconv_Quote (base64.CorruptInputError_Error e))).
Proof.
  intros Hne Hdec. unfold CookieConfig_Validate_body.
  now rewrite (eqb_empty_false _ Hne), Hdec.
Qed.

Lemma body_wrong_length (cc : CookieConfig) bs :
  Secret cc <> "" ->
  base64.DecodeString (Secret cc) = (bs, None) ->
  List.length bs <> 32%nat -> List.length bs <> 64%nat ->
  CookieConfig_Validate_body cc
    = (cc, Some ("Invalid value for cookie.secret; must decode to 32 or 64 bytes, but decoded to "
                   ++ strconv.Itoa (Z.of_nat (List.length bs)) ++ " bytes")).
Proof.
  intros Hne Hdec H32 H64. unfold CookieConfig_Validate_body.
  rewrite (eqb_empty_false _ Hne), Hdec. simpl fold_left.
  destruct (Z.eqb_spec (Z.of_nat (List.length bs)) 64) as [E | _]; [lia | ].
  destruct (Z.eqb_spec (Z.of_nat (List.length bs)) 32) as [E | _]; [lia | ].
  reflexivity.
Qed.

Lemma body_good_secret (cc : CookieConfig) bs :
  Secret cc <> "" ->
  base64.DecodeString (Secret cc) = (bs, None) ->
  List.length bs = 32%nat \/ List.length bs = 64%nat ->
  CookieConfig_Validate_body cc
    = ({| Name := Name cc; Secret := Secret cc; Expire := Expire cc;
          Domain := Domain cc; Secure := Secure cc; HTTPOnly := HTTPOnly cc;
          decodedSecret := Some bs |},
       if http.isCookieNameValid (Name cc) then None
       else Some ("invalid cc.name: " ++ strconv_Quote (Name cc))).
Proof.
  intros Hne Hdec Hlen. unfold CookieConfig_Validate_body.
  rewrite (eqb_empty_false _ Hne), Hdec. simpl fold_left.
  assert ((if Z.of_nat (List.length bs) =? 64 then true
           else if Z.of_nat (List.length bs) =? 32 then true else false) = true)
    as ->.
  { destruct Hlen as [-> | ->]; reflexivity. }
  cbv beta iota zeta. simpl Name. rewrite Cookie_String_empty.
  destruct (http.isCookieNameValid (Name cc)); reflexivity.
Qed.

(** The outcome of decoding a secret, as the validator distinguishes it. *)
Lemma secret_cases (secret : string) :
  secret = ""
  \/ (secret <> "" /\ exists bs e, base64.DecodeString secret = (bs, Some e))
  \/ (secret <> "" /\ exists bs, base64.DecodeString secret = (bs, None)
        /\ List.length bs <> 32%nat /\ List.length bs <> 64%nat)
  \/ (secret <> "" /\ exists bs, base64.DecodeString secret = (bs, None)
        /\ (List.length bs = 32%nat \/ List.length bs = 64%nat)).
Proof.
  destruct (string_dec secret "") as [-> | Hne]; [now left | right].
  destruct (base64.DecodeString secret) as [bs [e | ]] eqn:Hdec.
  - left. split; [assumption | now exists bs, e].
  - right.
    destruct (Nat.eq_dec (List.length bs) 32) as [H32 | H32];
      [right; split; [assumption | exists bs; auto] | ].
    destruct (Nat.eq_dec (List.length bs) 64) as [H64 | H64];
      [right; split; [assumption | exists bs; auto] | ].
    left. split; [assumption | exists bs; auto].
Qed.

(** C3: [CookieConfig.Validate] fails on an empty secret, on a secret that
    is not standard base64, and on one that decodes to a length other than
    32 or 64 bytes; the last message carries the decimal byte count, and
    the three messages differ from each other. *)
Theorem CookieConfig_Validate_secret :
  forall cc : CookieConfig,
    (Secret cc = "" ->
     CookieConfig_Validate cc = Some "no cookie.secret configured")
    /\ (forall bs e,
          Secret cc <> "" ->
          base64.DecodeString (Secret cc) = (bs, Some e) ->
          CookieConfig_Validate cc
            = Some ("invalid cookie.secret configured; expected base64-encoded bytes, as from `openssl rand 32 -base64`: "
                      ++ strconv_Quote (base64.CorruptInputError_Error e)))
    /\ (forall bs,
          Secret cc <> "" ->
          base64.DecodeString (Secret cc) = (bs, None) ->
          List.length bs <> 32%nat -> List.length bs <> 64%nat ->
          CookieConfig_Validate cc
            = Some ("Invalid value for cookie.secret; must decode to 32 or 64 bytes, but decoded to "
                      ++ strconv.Itoa (Z.of_nat (List.length bs)) ++ " bytes")
          /\ option_map Z.of_int
               (NilZero.int_of_string (strconv.Itoa (Z.of_nat (List.length bs))))
             = Some (Z.of_nat (List.length bs)))
    /\ (forall quoted count : string,
          "no cookie.secret configured"
            <> "invalid cookie.secret configured; expected base64-encoded bytes, as from `openssl rand 32 -base64`: "
                 ++ quoted
          /\ "no cookie.secret configured"
               <> "Invalid value for cookie.secret; must decode to 32 or 64 bytes, but decoded to "
                    ++ count ++ " bytes"
          /\ "invalid cookie.secret configured; expected base64-encoded bytes, as from `openssl rand 32 -base64`: "
               ++ quoted
               <> "Invalid value for cookie.secret; must decode to 32 or 64 bytes, but decoded to "
                    ++ count ++ " bytes").
Proof.
  intros cc. unfold CookieConfig_Validate, call_on_value. cbv zeta. simpl snd.
  repeat split.
  - intros H. now rewrite body_empty_secret.
  - intros bs e Hne Hdec. now rewrite (body_corrupt_secret cc bs e).
  - now rewrite (body_wrong_length cc bs).
  - apply Itoa_decimal.
  - discriminate.
  - discriminate.
  - discriminate.
Qed.

(** C9: a call of [CookieConfig.Validate] leaves the caller's value as it
    was; inside the method only [decodedSecret] of the receiver's copy is
    ever assigned, and it is assigned the decoded bytes once the secret has
    the right length. *)
Theorem CookieConfig_Validate_keeps_caller :
  forall cc : CookieConfig,
    fst (call_on_value CookieConfig_Validate_body cc) = cc
    /\ (let receiver := fst (CookieConfig_Validate_body cc) in
        Name receiver = Name cc /\ Secret receiver = Secret cc
        /\ Expire receiver = Expire cc /\ Domain receiver = Domain cc
        /\ Secure receiver = Secure cc /\ HTTPOnly receiver = HTTPOnly cc)
    /\ (forall bs,
          Secret cc <> "" ->
          base64.DecodeString (Secret cc) = (bs, None) ->
          List.length bs = 32%nat \/ List.length bs = 64%nat ->
          decodedSecret (fst (CookieConfig_Validate_body cc)) = Some bs
          /\ decodedSecret (fst (call_on_value CookieConfig_Validate_body cc))
             = decodedSecret cc).
Proof.
  intros cc. split; [reflexivity | split].
  - cbv zeta.
    destruct (secret_cases (Secret cc))
      as [H | [(Hne & bs & e & Hd) | [(Hne & bs & Hd & H32 & H64) | (Hne & bs & Hd & Hl)]]].
    + rewrite body_empty_secret by assumption. repeat split.
    + rewrite (body_corrupt_secret cc bs e) by assumption. repeat split.
    + rewrite (body_wrong_length cc bs) by assumption. repeat split.
    + rewrite (body_good_secret cc bs) by assumption. repeat split.
  - intros bs Hne Hd Hl.
    rewrite (body_good_secret cc bs) by assumption. split; reflexivity.
Qed.

(** C10: the secret is checked before the name: two cookie sections with
    the same rejected secret get the same secret error whatever their names
    are, and the name error is returned only for a secret that decodes to
    32 or 64 bytes. *)
Theorem CookieConfig_Validate_secret_first :
  forall cc : CookieConfig,
    (forall other : CookieConfig,
       Secret other = Secret cc ->
       (Secret cc = ""
        \/ (exists bs e, base64.DecodeString (Secret cc) = (bs, Some e))
        \/ (exists bs, base64.DecodeString (Secret cc) = (bs, None)
              /\ List.length bs <> 32%nat /\ List.length bs <> 64%nat)) ->
       CookieConfig_Validate other = CookieConfig_Validate cc
       /\ CookieConfig_Validate cc <> None
       /\ CookieConfig_Validate cc
            <> Some ("invalid cc.name: " ++ strconv_Quote (Name cc)))
    /\ (CookieConfig_Validate cc
          = Some ("invalid cc.name: " ++ strconv_Quote (Name cc)) ->
        Secret cc <> ""
        /\ exists bs, base64.DecodeString (Secret cc) = (bs, None)
             /\ (List.length bs = 32%nat \/ List.length bs = 64%nat)).
Proof.
  intros cc. unfold CookieConfig_Validate, call_on_value. cbv zeta. simpl snd.
  split.
  - intros other Hsame Hbad.
    destruct (secret_cases (Secret cc))
      as [H | [(Hne & bs & e & Hd) | [(Hne & bs & Hd & H32 & H64) | (Hne & bs & Hd & Hl)]]].
    + rewrite (body_empty_secret cc), (body_empty_secret other) by congruence.
      simpl. repeat split; discriminate.
    + rewrite (body_corrupt_secret cc bs e),
        (body_corrupt_secret other bs e) by congruence.
      simpl. repeat split; discriminate.
    + rewrite (body_wrong_length cc bs),
        (body_wrong_length other bs) by congruence.
      simpl. repeat split; discriminate.
    + exfalso. destruct Hbad as [H | [(bs' & e & H) | (bs' & H & H32 & H64)]].
      * contradiction.
      * congruence.
      * assert (bs' = bs) by congruence. subst bs'. destruct Hl; contradiction.
  - intros Hname.
    destruct (secret_cases (Secret cc))
      as [H | [(Hne & bs & e & Hd) | [(Hne & bs & Hd & H32 & H64) | (Hne & bs & Hd & Hl)]]].
    + rewrite body_empty_secret in Hname by assumption. discriminate.
    + rewrite (body_corrupt_secret cc bs e) in Hname by assumption. discriminate.
    + rewrite (body_wrong_length cc bs) in Hname by assumption. discriminate.
    + split; [assumption | exists bs; auto].
Qed.

(** *** The provider section *)

Lemma orb_eqb_empty_false (a b : string) :
  String.eqb a "" || String.eqb b "" = false -> a <> "" /\ b <> "".
Proof.
  intros H. apply orb_false_elim in H. destruct H as [Ha Hb].
  split; now apply String.eqb_neq.
Qed.

(** C4: [ProviderConfig.Validate] succeeds only when both URLs are
    non-empty, parse, and have a scheme and a host; a non-empty external URL
    that parses without a scheme or without a host (as "not-a-url" does) is
    rejected, with a message that is not the one an empty URL gets; the same
    holds of the internal URL. *)
Theorem ProviderConfig_Validate_urls :
  forall pc : ProviderConfig,
    (ProviderConfig_Validate pc = None ->
     ProviderURLExternal pc <> "" /\ ProviderURLInternal pc <> ""
     /\ exists external internal,
          url_Parse (ProviderURLExternal pc) = inl external
          /\ url_Parse (ProviderURLInternal pc) = inl internal
          /\ url.Scheme external <> "" /\ url.Host external <> ""
          /\ url.Scheme internal <> "" /\ url.Host internal <> "")
    /\ (ProviderType pc <> "" -> ProviderSlug pc <> "" ->
        (ProviderURLExternal pc = "" ->
         ProviderConfig_Validate pc
           = Some ("invalid provider.url_external: " ++ strconv_Quote ""))
        /\ (forall u,
              ProviderURLExternal pc <> "" ->
              url_Parse (ProviderURLExternal pc) = inl u ->
              url.Scheme u = "" \/ url.Host u = "" ->
              ProviderConfig_Validate pc
                = Some "provider.url_external must include scheme and host"
              /\ ProviderConfig_Validate pc
                   <> Some ("invalid provider.url_external: " ++ strconv_Quote ""))
        /\ (forall external,
              ProviderURLExternal pc <> "" ->
              url_Parse (ProviderURLExternal pc) = inl external ->
              url.Scheme external <> "" -> url.Host external <> "" ->
              (ProviderURLInternal pc = "" ->
               ProviderConfig_Validate pc
                 = Some ("invalid provider.url_internal: " ++ strconv_Quote ""))
              /\ (forall u,
                    ProviderURLInternal pc <> "" ->
                    url_Parse (ProviderURLInternal pc) = inl u ->
                    url.Scheme u = "" \/ url.Host u = "" ->
                    ProviderConfig_Validate pc
                      = Some "proxy provider url must include scheme and host"
                    /\ ProviderConfig_Validate pc
                         <> Some ("invalid provider.url_internal: "
                                    ++ strconv_Quote "")))).
Proof.
  intros pc. split.
  - unfold ProviderConfig_Validate.
    destruct (String.eqb_spec (ProviderType pc) ""); [discriminate | ].
    destruct (String.eqb_spec (ProviderSlug pc) ""); [discriminate | ].
    destruct (String.eqb_spec (ProviderURLExternal pc) "") as [ | Hext];
      [discriminate | ].
    destruct (url_Parse (ProviderURLExternal pc)) as [ue | err] eqn:Hue;
      [ | discriminate].
    destruct (String.eqb (url.Scheme ue) "" || String.eqb (url.Host ue) "")
      eqn:Hse; [discriminate | ].
    destruct (String.eqb_spec (ProviderURLInternal pc) "") as [ | Hint];
      [discriminate | ].
    destruct (url_Parse (ProviderURLInternal pc)) as [ui | err] eqn:Hui;
      [ | discriminate].
    destruct (String.eqb (url.Scheme ui) "" || String.eqb (url.Host ui) "")
      eqn:Hsi; [discriminate | ].
    intros _. apply orb_eqb_empty_false in Hse, Hsi.
    repeat split; try assumption.
    exists ue, ui. tauto.
  - intros Hty Hsl. unfold ProviderConfig_Validate.
    rewrite (eqb_empty_false _ Hty), (eqb_empty_false _ Hsl).
    split; [ | split].
    + intros ->. reflexivity.
    + intros u Hne Hparse Hmissing.
      rewrite (eqb_empty_false _ Hne), Hparse.
      assert (String.eqb (url.Scheme u) "" || String.eqb (url.Host u) "" = true)
        as ->.
      { destruct Hmissing as [-> | ->]; [reflexivity | apply orb_true_r]. }
      split; [reflexivity | discriminate].
    + intros ue Hne Hparse Hscheme Hhost.
      rewrite (eqb_empty_false _ Hne), Hparse,
        (eqb_empty_false _ Hscheme), (eqb_empty_false _ Hhost).
      simpl. split.
      * intros ->. reflexivity.
      * intros u Hine Hiparse Hmissing.
        rewrite (eqb_empty_false _ Hine), Hiparse.
        assert (String.eqb (url.Scheme u) "" || String.eqb (url.Host u) "" = true)
          as ->.
        { destruct Hmissing as [-> | ->]; [reflexivity | apply orb_true_r]. }
        split; [reflexivity | discriminate].
Qed.

(** *** The decoder and the loader *)

Lemma field_absent {T : Type} (dec : string -> Value -> T -> T * list string)
    (name fieldName : string) (m : list (string * Value)) (cur : T) :
  lookup_field m fieldName = None -> field dec name fieldName m cur = (cur, []).
Proof.
  intros H. unfold field. now rewrite H.
Qed.

Lemma sets_nothing_struct (fields : list (string * Schema))
    (m : list (string * Value)) :
  sets_nothing (Struct fields) (VMap m)
    = forallb (fun f => key_sets_nothing (snd f) m (fst f)) fields.
Proof.
  cbn [sets_nothing].
  induction fields as [ | [fieldName sub] fields IH]; [reflexivity | ].
  cbn [forallb fst snd]. now rewrite IH.
Qed.

Lemma field_basic_nothing {T : Type}
    (conv : string -> Value -> T -> T * list string)
    (name fieldName : string) (m : list (string * Value)) (cur : T) :
  key_sets_nothing Basic m fieldName = true ->
  field (decode_basic conv) name fieldName m cur = (cur, []).
Proof.
  unfold key_sets_nothing, field.
  destruct (lookup_field m fieldName) as [v | ]; [ | reflexivity].
  destruct v; simpl; try discriminate. reflexivity.
Qed.

Lemma field_struct_nothing {T : Type} (keys : Schema)
    (fromMap : string -> list (string * Value) -> T -> T * list string)
    (name fieldName : string) (m : list (string * Value)) (cur : T) :
  (forall name' m' x,
     sets_nothing keys (VMap m') = true -> fromMap name' m' x = (x, [])) ->
  key_sets_nothing keys m fieldName = true ->
  field (decodeStruct fromMap) name fieldName m cur = (cur, []).
Proof.
  intros Hsub. unfold key_sets_nothing, field.
  destruct (lookup_field m fieldName) as [v | ]; [ | reflexivity].
  destruct v; simpl; try (destruct keys; discriminate).
  - reflexivity.
  - apply Hsub.
Qed.

(** Opens [sets_nothing keys (VMap m) = true] into one fact per key. *)
Ltac open_keys H :=
  rewrite sets_nothing_struct in H; cbn [forallb fst snd] in H;
  rewrite ?andb_true_iff in H;
  repeat match type of H with _ /\ _ => destruct H as [? H] end;
  clear H.

Ltac basic_fields :=
  repeat rewrite field_basic_nothing by assumption.

Lemma decode_TimeoutConfig_nothing name m (tc : TimeoutConfig) :
  sets_nothing TimeoutConfig_keys (VMap m) = true ->
  decode_TimeoutConfig name m tc = (tc, []).
Proof.
  intros H. unfold TimeoutConfig_keys in H. open_keys H.
  unfold decode_TimeoutConfig. basic_fields. now destruct tc.
Qed.

Lemma decode_ServerConfig_nothing name m (sc : ServerConfig) :
  sets_nothing ServerConfig_keys (VMap m) = true ->
  decode_ServerConfig name m sc = (sc, []).
Proof.
  intros H. unfold ServerConfig_keys in H. open_keys H.
  unfold decode_ServerConfig. basic_fields.
  rewrite (field_struct_nothing TimeoutConfig_keys)
    by (assumption || apply decode_TimeoutConfig_nothing).
  now destruct sc.
Qed.

Lemma decode_ProviderConfig_nothing name m (pc : ProviderConfig) :
  sets_nothing ProviderConfig_keys (VMap m) = true ->
  decode_ProviderConfig name m pc = (pc, []).
Proof.
  intros H. unfold ProviderConfig_keys in H. open_keys H.
  unfold decode_ProviderConfig. basic_fields. now destruct pc.
Qed.

Lemma decode_ClientConfig_nothing name m (cc : ClientConfig) :
  sets_nothing ClientConfig_keys (VMap m) = true ->
  decode_ClientConfig name m cc = (cc, []).
Proof.
  intros H. unfold ClientConfig_keys in H. open_keys H.
  unfold decode_ClientConfig. basic_fields. now destruct cc.
Qed.

Lemma decode_CookieConfig_nothing name m (cc : CookieConfig) :
  sets_nothing CookieConfig_keys (VMap m) = true ->
  decode_CookieConfig name m cc = (cc, []).
Proof.
  intros H. unfold CookieConfig_keys in H. open_keys H.
  unfold decode_CookieConfig. basic_fields. now destruct cc.
Qed.

Lemma decode_TTLConfig_nothing name m (t : TTLConfig) :
  sets_nothing TTLConfig_keys (VMap m) = true ->
  decode_TTLConfig name m t = (t, []).
Proof.
  intros H. unfold TTLConfig_keys in H. open_keys H.
  unfold decode_TTLConfig. basic_fields. now destruct t.
Qed.

Lemma decode_SessionConfig_nothing name m (sc : SessionConfig) :
  sets_nothing SessionConfig_keys (VMap m) = true ->
  decode_SessionConfig name m sc = (sc, []).
Proof.
  intros H. unfold SessionConfig_keys in H. open_keys H.
  unfold decode_SessionConfig.
  rewrite (field_struct_nothing CookieConfig_keys)
    by (assumption || apply decode_CookieConfig_nothing).
  rewrite (field_struct_nothing TTLConfig_keys)
    by (assumption || apply decode_TTLConfig_nothing).
  now destruct sc.
Qed.

Lemma decode_EmailConfig_nothing name m (ec : EmailConfig) :
  sets_nothing EmailConfig_keys (VMap m) = true ->
  decode_EmailConfig name m ec = (ec, []).
Proof.
  intros H. unfold EmailConfig_keys in H. open_keys H.
  unfold decode_EmailConfig. basic_fields. now destruct ec.
Qed.

Lemma decode_DefaultConfig_nothing name m (dc : DefaultConfig) :
  sets_nothing DefaultConfig_keys (VMap m) = true ->
  decode_DefaultConfig name m dc = (dc, []).
Proof.
  intros H. unfold DefaultConfig_keys in H. open_keys H.
  unfold decode_DefaultConfig. basic_fields.
  rewrite (field_struct_nothing EmailConfig_keys)
    by (assumption || apply decode_EmailConfig_nothing).
  now destruct dc.
Qed.

Lemma decode_UpstreamConfigs_nothing name m (uc : UpstreamConfigs) :
  sets_nothing UpstreamConfigs_keys (VMap m) = true ->
  decode_UpstreamConfigs name m uc = (uc, []).
Proof.
  intros H. unfold UpstreamConfigs_keys in H. open_keys H.
  unfold decode_UpstreamConfigs. basic_fields.
  rewrite (field_struct_nothing DefaultConfig_keys)
    by (assumption || apply decode_DefaultConfig_nothing).
  now destruct uc.
Qed.

Lemma decode_StatsdConfig_nothing name m (sc : StatsdConfig) :
  sets_nothing StatsdConfig_keys (VMap m) = true ->
  decode_StatsdConfig name m sc = (sc, []).
Proof.
  intros H. unfold StatsdConfig_keys in H. open_keys H.
  unfold decode_StatsdConfig. basic_fields. now destruct sc.
Qed.

Lemma decode_MetricsConfig_nothing name m (mc : MetricsConfig) :
  sets_nothing MetricsConfig_keys (VMap m) = true ->
  decode_MetricsConfig name m mc = (mc, []).
Proof.
  intros H. unfold MetricsConfig_keys in H. open_keys H.
  unfold decode_MetricsConfig.
  rewrite (field_struct_nothing StatsdConfig_keys)
    by (assumption || apply decode_StatsdConfig_nothing).
  now destruct mc.
Qed.

Lemma decode_LoggingConfig_nothing name m (lc : LoggingConfig) :
  sets_nothing LoggingConfig_keys (VMap m) = true ->
  decode_LoggingConfig name m lc = (lc, []).
Proof.
  intros H. unfold LoggingConfig_keys in H. open_keys H.
  unfold decode_LoggingConfig. basic_fields. now destruct lc.
Qed.

Lemma decode_RequestSignerConfig_nothing name m (rsc : RequestSignerConfig) :
  sets_nothing RequestSignerConfig_keys (VMap m) = true ->
  decode_RequestSignerConfig name m rsc = (rsc, []).
Proof.
  intros H. unfold RequestSignerConfig_keys in H. open_keys H.
  unfold decode_RequestSignerConfig. basic_fields. now destruct rsc.
Qed.

Lemma decode_Configuration_nothing name m (c : Configuration) :
  sets_nothing Configuration_keys (VMap m) = true ->
  decode_Configuration name m c = (c, []).
Proof.
  intros H. unfold Configuration_keys in H. open_keys H.
  unfold decode_Configuration.
  rewrite (field_struct_nothing ServerConfig_keys)
    by (assumption || apply decode_ServerConfig_nothing).
  rewrite (field_struct_nothing ProviderConfig_keys)
    by (assumption || apply decode_ProviderConfig_nothing).
  rewrite (field_struct_nothing ClientConfig_keys)
    by (assumption || apply decode_ClientConfig_nothing).
  rewrite (field_struct_nothing SessionConfig_keys)
    by (assumption || apply decode_SessionConfig_nothing).
  rewrite (field_struct_nothing UpstreamConfigs_keys)
    by (assumption || apply decode_UpstreamConfigs_nothing).
  rewrite (field_struct_nothing MetricsConfig_keys)
    by (assumption || apply decode_MetricsConfig_nothing).
  rewrite (field_struct_nothing LoggingConfig_keys)
    by (assumption || apply decode_LoggingConfig_nothing).
  rewrite (field_struct_nothing RequestSignerConfig_keys)
    by (assumption || apply decode_RequestSignerConfig_nothing).
  now destruct c.
Qed.

Lemma lookup_field_unknown (m : list (string * Value)) (fieldName : string) :
  (forall k v, In (k, v) m ->
     String.eqb k fieldName || strings_EqualFold k fieldName = false) ->
  lookup_field m fieldName = None.
Proof.
  intros H. unfold lookup_field.
  assert (MapIndex m fieldName = None /\ search_fold m fieldName = None)
    as [-> ->]; [ | reflexivity].
  induction m as [ | [k v] m IH]; [now split | ].
  destruct (orb_false_elim _ _ (H k v (or_introl eq_refl))) as [Hk Hf].
  destruct IH as [IH1 IH2].
  { intros k' v' Hin. apply (H k' v'). now right. }
  simpl. now rewrite Hk, Hf.
Qed.

Lemma unknown_sections_set_nothing (m : list (string * Value)) :
  (forall k v, In (k, v) m -> names_a_section k = false) ->
  sets_nothing Configuration_keys (VMap m) = true.
Proof.
  intros H.
  assert (forall fieldName, In fieldName section_names ->
            lookup_field m fieldName = None) as Hnone.
  { intros fieldName Hin. apply lookup_field_unknown. intros k v Hkv.
    specialize (H k v Hkv). unfold names_a_section in H.
    destruct (String.eqb k fieldName || strings_EqualFold k fieldName) eqn:E;
      [ | reflexivity].
    rewrite <- H. symmetry. apply existsb_exists. now exists fieldName. }
  unfold Configuration_keys. rewrite sets_nothing_struct.
  cbn [forallb fst snd]. unfold key_sets_nothing.
  rewrite !Hnone by (cbn; tauto). reflexivity.
Qed.

(** C8: a source that loads and sets no recognized key yields exactly the
    defaults, without error.  That holds of a source none of whose key paths
    leads to a field the decoder knows, hence of the source with no key at
    all, and of every source whose keys name no section. *)
Theorem LoadConfig_no_recognized_key :
  forall src : Source,
    conf_Load src = None ->
    (sets_nothing Configuration_keys (VMap (conf_Map src)) = true ->
     LoadConfig src = (DefaultProxyConfig tt, None))
    /\ (conf_Map src = [] -> LoadConfig src = (DefaultProxyConfig tt, None))
    /\ ((forall k v, In (k, v) (conf_Map src) -> names_a_section k = false) ->
        LoadConfig src = (DefaultProxyConfig tt, None)).
Proof.
  intros src Hload.
  assert (sets_nothing Configuration_keys (VMap (conf_Map src)) = true ->
          LoadConfig src = (DefaultProxyConfig tt, None)) as Hmain.
  { intros Hkeys. unfold LoadConfig, Decode.
    rewrite Hload, (decode_Configuration_nothing _ _ _ Hkeys). reflexivity. }
  split; [exact Hmain | split].
  - intros Hempty. apply Hmain. rewrite Hempty. reflexivity.
  - intros Hunknown. apply Hmain, unknown_sections_set_nothing, Hunknown.
Qed.

(** Each section of the decoded configuration comes from its own key. *)
Lemma decode_Configuration_sections name m (c : Configuration) :
  let c' := fst (decode_Configuration name m c) in
  Cfg_ServerConfig c'
    = fst (field (decodeStruct decode_ServerConfig) name "server" m (Cfg_ServerConfig c))
  /\ Cfg_ProviderConfig c'
     = fst (field (decodeStruct decode_ProviderConfig) name "provider" m (Cfg_ProviderConfig c))
  /\ Cfg_ClientConfig c'
     = fst (field (decodeStruct decode_ClientConfig) name "client" m (Cfg_ClientConfig c))
  /\ Cfg_SessionConfig c'
     = fst (field (decodeStruct decode_SessionConfig) name "session" m (Cfg_SessionConfig c))
  /\ Cfg_UpstreamConfigs c'
     = fst (field (decodeStruct decode_UpstreamConfigs) name "upstream" m (Cfg_UpstreamConfigs c))
  /\ Cfg_MetricsConfig c'
     = fst (field (decodeStruct decode_MetricsConfig) name "MetricsConfig" m (Cfg_MetricsConfig c))
  /\ Cfg_LoggingConfig c'
     = fst (field (decodeStruct decode_LoggingConfig) name "logging" m (Cfg_LoggingConfig c))
  /\ Cfg_RequestSignerConfig c'
     = fst (field (decodeStruct decode_RequestSignerConfig) name "requestsigner" m
              (Cfg_RequestSignerConfig c)).
Proof.
  unfold decode_Configuration.
  repeat match goal with
         | |- context [field ?d name ?f m ?x] =>
             let r := fresh "r" in
             remember (field d name f m x) as r; destruct r
         end.
  cbn. repeat split.
Qed.

Lemma Decode_fst (m : list (string * Value)) (c : Configuration) :
  fst (Decode m c) = fst (decode_Configuration "" m c).
Proof.
  unfold Decode. destruct (decode_Configuration "" m c) as [c' [ | e es]];
    reflexivity.
Qed.

(** C6, as the code has it: when loading fails, [LoadConfig] returns the
    error with the configuration as the failing stage left it.  If the
    source itself fails to load, that is [DefaultProxyConfig()]; if the
    decoder fails, it is the decoder's output on the defaults, whose errors
    are the decoder's list, and in which every section the source holds no
    key for still has its default value. *)
Theorem LoadConfig_failure_state :
  forall (src : Source) (e : LoadError),
    snd (LoadConfig src) = Some e ->
    (forall err, conf_Load src = Some err ->
       LoadConfig src = (DefaultProxyConfig tt, Some (SourceError err)))
    /\ (conf_Load src = None ->
        let m := conf_Map src in
        let d := DefaultProxyConfig tt in
        let c := fst (LoadConfig src) in
        c = fst (decode_Configuration "" m d)
        /\ e = DecodeError (snd (decode_Configuration "" m d))
        /\ snd (decode_Configuration "" m d) <> []
        /\ (lookup_field m "server" = None ->
            Cfg_ServerConfig c = Cfg_ServerConfig d)
        /\ (lookup_field m "provider" = None ->
            Cfg_ProviderConfig c = Cfg_ProviderConfig d)
        /\ (lookup_field m "client" = None ->
            Cfg_ClientConfig c = Cfg_ClientConfig d)
        /\ (lookup_field m "session" = None ->
            Cfg_SessionConfig c = Cfg_SessionConfig d)
        /\ (lookup_field m "upstream" = None ->
            Cfg_UpstreamConfigs c = Cfg_UpstreamConfigs d)
        /\ (lookup_field m "MetricsConfig" = None ->
            Cfg_MetricsConfig c = Cfg_MetricsConfig d)
        /\ (lookup_field m "logging" = None ->
            Cfg_LoggingConfig c = Cfg_LoggingConfig d)
        /\ (lookup_field m "requestsigner" = None ->
            Cfg_RequestSignerConfig c = Cfg_RequestSignerConfig d)).
Proof.
  intros src e He. split.
  - intros err Hload. unfold LoadConfig. now rewrite Hload.
  - intros Hload m d c.
    assert (LoadConfig src = Decode m d) as HL.
    { unfold LoadConfig. now rewrite Hload. }
    assert (c = fst (decode_Configuration "" m d)) as Hc.
    { subst c. now rewrite HL, Decode_fst. }
    split; [exact Hc | ].
    rewrite HL in He. unfold Decode in He.
    destruct (decode_Configuration "" m d) as [c' errors] eqn:Hdec.
    destruct errors as [ | e0 es]; [discriminate | ].
    injection He as <-.
    split; [reflexivity | split; [discriminate | ]].
    pose proof (decode_Configuration_sections "" m d) as Hs.
    rewrite Hdec in Hs. cbn [fst] in Hs, Hc. subst c'.
    destruct Hs as (H1 & H2 & H3 & H4 & H5 & H6 & H7 & H8).
    repeat split; intros Habs.
    + rewrite H1, field_absent by assumption. reflexivity.
    + rewrite H2, field_absent by assumption. reflexivity.
    + rewrite H3, field_absent by assumption. reflexivity.
    + rewrite H4, field_absent by assumption. reflexivity.
    + rewrite H5, field_absent by assumption. reflexivity.
    + rewrite H6, field_absent by assumption. reflexivity.
    + rewrite H7, field_absent by assumption. reflexivity.
    + rewrite H8, field_absent by assumption. reflexivity.
Qed.

(** ** Further properties of the validators *)

Lemma neq_empty_eqb (s : string) : String.eqb s "" = false -> s <> "".
Proof.
  intros H. now apply String.eqb_neq.
Qed.

Lemma ServerConfig_Validate_None (sc : ServerConfig) :
  ServerConfig_Validate sc = None <-> Port sc <> 0.
Proof.
  unfold ServerConfig_Validate, TimeoutConfig_Validate.
  destruct (Z.eqb_spec (Port sc) 0); split; intros H;
    try discriminate; try reflexivity; try assumption; contradiction.
Qed.

Lemma CookieConfig_Validate_None (cc : CookieConfig) :
  CookieConfig_Validate cc = None
  <-> Secret cc <> ""
      /\ (exists bs, base64.DecodeString (Secret cc) = (bs, None)
            /\ (List.length bs = 32%nat \/ List.length bs = 64%nat))
      /\ http.isCookieNameValid (Name cc) = true.
Proof.
  unfold CookieConfig_Validate, call_on_value. cbv zeta. simpl snd.
  split.
  - intros Hv.
    destruct (secret_cases (Secret cc))
      as [H | [(Hne & bs & e & Hd) | [(Hne & bs & Hd & H32 & H64) | (Hne & bs & Hd & Hl)]]].
    + rewrite body_empty_secret in Hv by assumption. discriminate.
    + rewrite (body_corrupt_secret cc bs e) in Hv by assumption. discriminate.
    + rewrite (body_wrong_length cc bs) in Hv by assumption. discriminate.
    + rewrite (body_good_secret cc bs) in Hv by assumption. simpl in Hv.
      split; [assumption | split; [exists bs; auto | ]].
      destruct (http.isCookieNameValid (Name cc)); [reflexivity | discriminate].
  - intros (Hne & (bs & Hd & Hl) & Hname).
    rewrite (body_good_secret cc bs) by assumption. simpl. now rewrite Hname.
Qed.

Lemma SessionConfig_Validate_cookie (sc : SessionConfig) :
  SessionConfig_Validate sc
    = match CookieConfig_Validate (Session_CookieConfig sc) with
      | Some err => Some ("invalid session.cookie config: " ++ err)
      | None => None
      end.
Proof.
  unfold SessionConfig_Validate, TTLConfig_Validate.
  destruct (CookieConfig_Validate (Session_CookieConfig sc)); reflexivity.
Qed.

Lemma MetricsConfig_Validate_statsd (mc : MetricsConfig) :
  MetricsConfig_Validate mc
    = match StatsdConfig_Validate (Metrics_StatsdConfig mc) with
      | Some err => Some ("invalid metrics.statsd config: " ++ err)
      | None => None
      end.
Proof.
  reflexivity.
Qed.

(** X9: [ClientConfig.Validate] reports a missing id before a missing
    secret, and succeeds exactly when both are set. *)
Theorem ClientConfig_Validate_cases :
  forall cc : ClientConfig,
    (ID cc = "" -> ClientConfig_Validate cc = Some "no client.id configured")
    /\ (ID cc <> "" -> Client_Secret cc = "" ->
        ClientConfig_Validate cc = Some "no client.secret configured")
    /\ (ClientConfig_Validate cc = None <-> ID cc <> "" /\ Client_Secret cc <> "").
Proof.
  intros cc. unfold ClientConfig_Validate.
  destruct (String.eqb_spec (ID cc) "") as [Hi | Hi];
    destruct (String.eqb_spec (Client_Secret cc) "") as [Hs | Hs];
    repeat split; intros; try reflexivity; try discriminate;
    try contradiction; try tauto.
Qed.

(** X10: [UpstreamConfigs.Validate] probes the file before it looks at the
    cluster: a file that does not open is reported whatever the cluster is;
    with an empty path or a file that opens, a missing cluster is reported;
    validation succeeds exactly when the path is empty or opens and the
    cluster is set. *)
Theorem UpstreamConfigs_Validate_cases :
  forall uc : UpstreamConfigs,
    (forall err,
       ConfigsFile uc <> "" -> os_Open (ConfigsFile uc) = Some err ->
       UpstreamConfigs_Validate uc
         = Some ("invalid upstream.config filepath: " ++ err))
    /\ (ConfigsFile uc = "" \/ os_Open (ConfigsFile uc) = None ->
        Cluster uc = "" ->
        UpstreamConfigs_Validate uc
          = Some "no upstream.config cluster configured")
    /\ (UpstreamConfigs_Validate uc = None
        <-> (ConfigsFile uc = "" \/ os_Open (ConfigsFile uc) = None)
            /\ Cluster uc <> "").
Proof.
  intros uc. split; [ | split].
  - intros err Hf Ho. unfold UpstreamConfigs_Validate.
    now rewrite (eqb_empty_false _ Hf), Ho.
  - intros Hf Hc. unfold UpstreamConfigs_Validate. rewrite Hc.
    destruct (String.eqb_spec (ConfigsFile uc) "") as [He | He]; simpl;
      [reflexivity | ].
    destruct Hf as [Hf | Hf]; [contradiction | now rewrite Hf].
  - unfold UpstreamConfigs_Validate.
    destruct (String.eqb_spec (ConfigsFile uc) "") as [Hf | Hf]; simpl.
    + destruct (String.eqb_spec (Cluster uc) "") as [Hc | Hc]; split;
        try discriminate; try tauto.
    + destruct (os_Open (ConfigsFile uc)) as [e | ] eqn:Ho.
      * split; [discriminate | ]. intros [[H | H] _]; [contradiction | discriminate].
      * destruct (String.eqb_spec (Cluster uc) "") as [Hc | Hc]; split;
          try discriminate; try tauto.
Qed.

(** X11: [MetricsConfig.Validate] wraps the statsd error; the host is
    checked before the port, the port message starts with a space, and
    validation succeeds exactly when the host is set and the port is not
    zero. *)
Theorem MetricsConfig_Validate_cases :
  forall mc : MetricsConfig,
    let sc := Metrics_StatsdConfig mc in
    (Statsd_Host sc = "" ->
     MetricsConfig_Validate mc
       = Some "invalid metrics.statsd config: no statsd.host configured")
    /\ (Statsd_Host sc <> "" -> Statsd_Port sc = 0 ->
        MetricsConfig_Validate mc
          = Some "invalid metrics.statsd config:  no statsd.port configured")
    /\ (MetricsConfig_Validate mc = None
        <-> Statsd_Host sc <> "" /\ Statsd_Port sc <> 0).
Proof.
  intros mc sc. unfold MetricsConfig_Validate, StatsdConfig_Validate. fold sc.
  destruct (String.eqb_spec (Statsd_Host sc) "") as [Hh | Hh];
    destruct (Z.eqb_spec (Statsd_Port sc) 0) as [Hp | Hp];
    repeat split; intros; try reflexivity; try discriminate;
    try contradiction; try tauto.
Qed.

(** X7: [ProviderConfig.Validate] succeeds exactly when the type, the slug
    and both URLs are set and each URL parses with a scheme and a host; the
    scope and the preflight field play no part. *)
Theorem ProviderConfig_Validate_success :
  forall pc : ProviderConfig,
    ProviderConfig_Validate pc = None
    <-> ProviderType pc <> "" /\ ProviderSlug pc <> ""
        /\ ProviderURLExternal pc <> "" /\ ProviderURLInternal pc <> ""
        /\ exists external internal,
             url_Parse (ProviderURLExternal pc) = inl external
             /\ url_Parse (ProviderURLInternal pc) = inl internal
             /\ url.Scheme external <> "" /\ url.Host external <> ""
             /\ url.Scheme internal <> "" /\ url.Host internal <> "".
Proof.
  intros pc. unfold ProviderConfig_Validate. split.
  - destruct (String.eqb_spec (ProviderType pc) ""); [discriminate | ].
    destruct (String.eqb_spec (ProviderSlug pc) ""); [discriminate | ].
    destruct (String.eqb_spec (ProviderURLExternal pc) ""); [discriminate | ].
    destruct (url_Parse (ProviderURLExternal pc)) as [ue | err];
      [ | discriminate].
    destruct (String.eqb (url.Scheme ue) "" || String.eqb (url.Host ue) "")
      eqn:Hse; [discriminate | ].
    destruct (String.eqb_spec (ProviderURLInternal pc) ""); [discriminate | ].
    destruct (url_Parse (ProviderURLInternal pc)) as [ui | err];
      [ | discriminate].
    destruct (String.eqb (url.Scheme ui) "" || String.eqb (url.Host ui) "")
      eqn:Hsi; [discriminate | ].
    intros _. apply orb_eqb_empty_false in Hse, Hsi.
    repeat split; try assumption. exists ue, ui. tauto.
  - intros (Hty & Hsl & Hext & Hint & ue & ui & Hue & Hui & H1 & H2 & H3 & H4).
    rewrite (eqb_empty_false _ Hty), (eqb_empty_false _ Hsl),
      (eqb_empty_false _ Hext), Hue, (eqb_empty_false _ H1),
      (eqb_empty_false _ H2).
    simpl.
    now rewrite (eqb_empty_false _ Hint), Hui, (eqb_empty_false _ H3),
      (eqb_empty_false _ H4).
Qed.

(** X8: [ProviderConfig.Validate] checks the type, then the slug, then the
    external URL, then the internal one.  A parse error of the external URL
    is returned as it is; a parse error of the internal URL is quoted behind
    a message of the validator's own. *)
Theorem ProviderConfig_Validate_order :
  forall pc : ProviderConfig,
    (ProviderType pc = "" ->
     ProviderConfig_Validate pc
       = Some ("invalid provider.type: " ++ strconv_Quote ""))
    /\ (ProviderType pc <> "" -> ProviderSlug pc = "" ->
        ProviderConfig_Validate pc
          = Some ("invalid provider.slug: " ++ strconv_Quote ""))
    /\ (forall err,
          ProviderType pc <> "" -> ProviderSlug pc <> "" ->
          ProviderURLExternal pc <> "" ->
          url_Parse (ProviderURLExternal pc) = inr err ->
          ProviderConfig_Validate pc = Some err)
    /\ (forall external err,
          ProviderType pc <> "" -> ProviderSlug pc <> "" ->
          ProviderURLExternal pc <> "" ->
          url_Parse (ProviderURLExternal pc) = inl external ->
          url.Scheme external <> "" -> url.Host external <> "" ->
          ProviderURLInternal pc <> "" ->
          url_Parse (ProviderURLInternal pc) = inr err ->
          ProviderConfig_Validate pc
            = Some ("invalid pc.url_internal configured: " ++ strconv_Quote err)).
Proof.
  intros pc. unfold ProviderConfig_Validate. split; [ | split; [ | split]].
  - intros ->. reflexivity.
  - intros Hty ->. now rewrite (eqb_empty_false _ Hty).
  - intros err Hty Hsl Hext Hparse.
    now rewrite (eqb_empty_false _ Hty), (eqb_empty_false _ Hsl),
      (eqb_empty_false _ Hext), Hparse.
  - intros ue err Hty Hsl Hext Hue H1 H2 Hint Hui.
    rewrite (eqb_empty_false _ Hty), (eqb_empty_false _ Hsl),
      (eqb_empty_false _ Hext), Hue, (eqb_empty_false _ H1),
      (eqb_empty_false _ H2).
    simpl. now rewrite (eqb_empty_false _ Hint), Hui.
Qed.

(** ** Further properties of the cascade *)

Lemma ClientConfig_Validate_None (cc : ClientConfig) :
  ClientConfig_Validate cc = None <-> ID cc <> "" /\ Client_Secret cc <> "".
Proof.
  unfold ClientConfig_Validate.
  destruct (String.eqb_spec (ID cc) "");
    destruct (String.eqb_spec (Client_Secret cc) "");
    split; try discriminate; tauto.
Qed.

Lemma UpstreamConfigs_Validate_None (uc : UpstreamConfigs) :
  UpstreamConfigs_Validate uc = None
  <-> (ConfigsFile uc = "" \/ os_Open (ConfigsFile uc) = None)
      /\ Cluster uc <> "".
Proof.
  unfold UpstreamConfigs_Validate.
  destruct (String.eqb_spec (ConfigsFile uc) "") as [Hf | Hf]; simpl.
  - destruct (String.eqb_spec (Cluster uc) "") as [Hc | Hc]; split;
      try discriminate; try tauto.
  - destruct (os_Open (ConfigsFile uc)) as [e | ] eqn:Ho.
    + split; [discriminate | ].
      intros [[H | H] _]; [contradiction | discriminate].
    + destruct (String.eqb_spec (Cluster uc) "") as [Hc | Hc]; split;
        try discriminate; try tauto.
Qed.

Lemma MetricsConfig_Validate_None (mc : MetricsConfig) :
  MetricsConfig_Validate mc = None
  <-> Statsd_Host (Metrics_StatsdConfig mc) <> ""
      /\ Statsd_Port (Metrics_StatsdConfig mc) <> 0.
Proof.
  unfold MetricsConfig_Validate, StatsdConfig_Validate.
  destruct (String.eqb_spec (Statsd_Host (Metrics_StatsdConfig mc)) "");
    destruct (Z.eqb_spec (Statsd_Port (Metrics_StatsdConfig mc)) 0);
    split; try discriminate; tauto.
Qed.

(** X4: [CookieConfig.Validate] succeeds exactly when the secret is set,
    decodes without error to 32 or 64 bytes, and the name is a non-empty
    token; expiry, domain and the two flags play no part. *)
Theorem CookieConfig_Validate_success :
  forall cc : CookieConfig,
    CookieConfig_Validate cc = None
    <-> Secret cc <> ""
        /\ (exists bs, base64.DecodeString (Secret cc) = (bs, None)
              /\ (List.length bs = 32%nat \/ List.length bs = 64%nat))
        /\ Name cc <> "" /\ http.all_token (Name cc) = true.
Proof.
  intros cc. rewrite CookieConfig_Validate_None.
  unfold http.isCookieNameValid.
  destruct (String.eqb_spec (Name cc) "") as [Hn | Hn].
  - split; [intros (_ & _ & H); discriminate | tauto].
  - tauto.
Qed.

(** X1: [Configuration.Validate] succeeds exactly when the port is not
    zero, the provider and the cookie sections validate, the client id and
    secret are set, the upstream file path is empty or opens, the cluster is
    set, and the statsd host and port are set. *)
Theorem Configuration_Validate_success :
  forall c : Configuration,
    Configuration_Validate c = None
    <-> Port (Cfg_ServerConfig c) <> 0
        /\ ProviderConfig_Validate (Cfg_ProviderConfig c) = None
        /\ CookieConfig_Validate (Session_CookieConfig (Cfg_SessionConfig c)) = None
        /\ ID (Cfg_ClientConfig c) <> ""
        /\ Client_Secret (Cfg_ClientConfig c) <> ""
        /\ (ConfigsFile (Cfg_UpstreamConfigs c) = ""
            \/ os_Open (ConfigsFile (Cfg_UpstreamConfigs c)) = None)
        /\ Cluster (Cfg_UpstreamConfigs c) <> ""
        /\ Statsd_Host (Metrics_StatsdConfig (Cfg_MetricsConfig c)) <> ""
        /\ Statsd_Port (Metrics_StatsdConfig (Cfg_MetricsConfig c)) <> 0.
Proof.
  intros c.
  pose proof (ServerConfig_Validate_None (Cfg_ServerConfig c)) as Hs.
  pose proof (ClientConfig_Validate_None (Cfg_ClientConfig c)) as Hc.
  pose proof (UpstreamConfigs_Validate_None (Cfg_UpstreamConfigs c)) as Hu.
  pose proof (MetricsConfig_Validate_None (Cfg_MetricsConfig c)) as Hm.
  unfold Configuration_Validate.
  rewrite SessionConfig_Validate_cookie.
  unfold LoggingConfig_Validate, RequestSignerConfig_Validate.
  destruct (ServerConfig_Validate (Cfg_ServerConfig c));
    [split; [discriminate | intros (H & _); apply Hs in H; discriminate] | ].
  destruct (ProviderConfig_Validate (Cfg_ProviderConfig c));
    [split; [discriminate | intros (_ & H & _); discriminate] | ].
  destruct (CookieConfig_Validate (Session_CookieConfig (Cfg_SessionConfig c)));
    [split; [discriminate | intros (_ & _ & H & _); discriminate] | ].
  destruct (ClientConfig_Validate (Cfg_ClientConfig c));
    [split; [discriminate
            | intros (_ & _ & _ & H1 & H2 & _);
              assert (Some e = None) by (apply Hc; tauto); discriminate] | ].
  destruct (UpstreamConfigs_Validate (Cfg_UpstreamConfigs c));
    [split; [discriminate
            | intros (_ & _ & _ & _ & _ & H1 & H2 & _);
              assert (Some e = None) by (apply Hu; tauto); discriminate] | ].
  destruct (MetricsConfig_Validate (Cfg_MetricsConfig c));
    [split; [discriminate
            | intros (_ & _ & _ & _ & _ & _ & _ & H1 & H2);
              assert (Some e = None) by (apply Hm; tauto); discriminate] | ].
  split; [ | reflexivity].
  intros _.
  repeat split; try tauto; try (apply Hs; reflexivity);
    try (apply Hc; reflexivity); try (apply Hu; reflexivity);
    try (apply Hm; reflexivity).
Qed.

Ltac first_failure_case :=
  match goal with
  | H : exists _, _ |- _ => destruct H as (? & ? & ?)
  | H : _ /\ _ |- _ => destruct H
  end.

(** X2: [Configuration.Validate] returns the error of the first section
    that fails, in the order server, provider, session, client, upstream,
    metrics, behind that section's label; the sections after it are not
    looked at.  A cookie error carries the session and the cookie labels, a
    statsd error the metrics and the statsd labels, and a client error the
    session label. *)
Theorem Configuration_Validate_first_failure :
  forall (c : Configuration) (e : error),
    let sv := ServerConfig_Validate (Cfg_ServerConfig c) in
    let pr := ProviderConfig_Validate (Cfg_ProviderConfig c) in
    let ck := CookieConfig_Validate (Session_CookieConfig (Cfg_SessionConfig c)) in
    let cl := ClientConfig_Validate (Cfg_ClientConfig c) in
    let up := UpstreamConfigs_Validate (Cfg_UpstreamConfigs c) in
    let st := StatsdConfig_Validate (Metrics_StatsdConfig (Cfg_MetricsConfig c)) in
    Configuration_Validate c = Some e
    <-> (exists err, sv = Some err /\ e = "invalid server config: " ++ err)
        \/ (sv = None
            /\ exists err, pr = Some err /\ e = "invalid provider config: " ++ err)
        \/ (sv = None /\ pr = None
            /\ exists err,
                 ck = Some err
                 /\ e = "invalid session config: invalid session.cookie config: "
                          ++ err)
        \/ (sv = None /\ pr = None /\ ck = None
            /\ exists err, cl = Some err /\ e = "invalid session config: " ++ err)
        \/ (sv = None /\ pr = None /\ ck = None /\ cl = None
            /\ exists err, up = Some err /\ e = "invalid upstream config: " ++ err)
        \/ (sv = None /\ pr = None /\ ck = None /\ cl = None /\ up = None
            /\ exists err,
                 st = Some err
                 /\ e = "invalid metrics config: invalid metrics.statsd config: "
                          ++ err).
Proof.
  intros c e sv pr ck cl up st.
  unfold Configuration_Validate.
  rewrite SessionConfig_Validate_cookie, MetricsConfig_Validate_statsd.
  unfold LoggingConfig_Validate, RequestSignerConfig_Validate, xerrors.Errorf_w.
  fold sv pr ck cl up st.
  destruct sv as [e1 | ].
  { split.
    - intros [= <-]. left. now exists e1.
    - intros H. decompose [or] H; repeat first_failure_case;
        try discriminate.
      match goal with H : Some _ = Some _ |- _ => injection H as H end.
      subst. reflexivity. }
  destruct pr as [e2 | ].
  { split.
    - intros [= <-]. right. left. split; [reflexivity | now exists e2].
    - intros H. decompose [or] H; repeat first_failure_case;
        try discriminate.
      match goal with H : Some _ = Some _ |- _ => injection H as H end.
      subst. reflexivity. }
  destruct ck as [e3 | ].
  { split.
    - intros [= <-]. right. right. left.
      repeat split. now exists e3.
    - intros H. decompose [or] H; repeat first_failure_case;
        try discriminate.
      match goal with H : Some _ = Some _ |- _ => injection H as H end.
      subst. reflexivity. }
  destruct cl as [e4 | ].
  { split.
    - intros [= <-]. right. right. right. left.
      repeat split. now exists e4.
    - intros H. decompose [or] H; repeat first_failure_case;
        try discriminate.
      match goal with H : Some _ = Some _ |- _ => injection H as H end.
      subst. reflexivity. }
  destruct up as [e5 | ].
  { split.
    - intros [= <-]. right. right. right. right. left.
      repeat split. now exists e5.
    - intros H. decompose [or] H; repeat first_failure_case;
        try discriminate.
      match goal with H : Some _ = Some _ |- _ => injection H as H end.
      subst. reflexivity. }
  destruct st as [e6 | ].
  { split.
    - intros [= <-]. right. right. right. right. right.
      repeat split. now exists e6.
    - intros H. decompose [or] H; repeat first_failure_case;
        try discriminate.
      match goal with H : Some _ = Some _ |- _ => injection H as H end.
      subst. reflexivity. }
  split; [discriminate | ].
  intros H. decompose [or] H; repeat first_failure_case; discriminate.
Qed.

Lemma CookieConfig_Validate_ext (cc cc' : CookieConfig) :
  Name cc = Name cc' -> Secret cc = Secret cc' ->
  CookieConfig_Validate cc = CookieConfig_Validate cc'.
Proof.
  intros Hn Hs. unfold CookieConfig_Validate, call_on_value. cbv zeta. simpl snd.
  destruct (secret_cases (Secret cc))
    as [H | [(Hne & bs & e & Hd) | [(Hne & bs & Hd & H32 & H64) | (Hne & bs & Hd & Hl)]]].
  - rewrite (body_empty_secret cc), (body_empty_secret cc') by congruence.
    reflexivity.
  - rewrite (body_corrupt_secret cc bs e), (body_corrupt_secret cc' bs e)
      by congruence.
    reflexivity.
  - rewrite (body_wrong_length cc bs), (body_wrong_length cc' bs) by congruence.
    reflexivity.
  - rewrite (body_good_secret cc bs), (body_good_secret cc' bs) by congruence.
    simpl. now rewrite Hn.
Qed.

(** X3: the result of [Configuration.Validate] depends on the port, the
    provider's type, slug and URLs, the cookie's name and secret, the
    client section, the upstream file path and cluster, and the statsd
    section only: timeouts, TTLs, logging, the request signer and every
    other field can take any value. *)
Theorem Configuration_Validate_frame :
  forall c c' : Configuration,
    Port (Cfg_ServerConfig c) = Port (Cfg_ServerConfig c') ->
    ProviderType (Cfg_ProviderConfig c) = ProviderType (Cfg_ProviderConfig c') ->
    ProviderSlug (Cfg_ProviderConfig c) = ProviderSlug (Cfg_ProviderConfig c') ->
    ProviderURLExternal (Cfg_ProviderConfig c)
      = ProviderURLExternal (Cfg_ProviderConfig c') ->
    ProviderURLInternal (Cfg_ProviderConfig c)
      = ProviderURLInternal (Cfg_ProviderConfig c') ->
    Name (Session_CookieConfig (Cfg_SessionConfig c))
      = Name (Session_CookieConfig (Cfg_SessionConfig c')) ->
    Secret (Session_CookieConfig (Cfg_SessionConfig c))
      = Secret (Session_CookieConfig (Cfg_SessionConfig c')) ->
    Cfg_ClientConfig c = Cfg_ClientConfig c' ->
    ConfigsFile (Cfg_UpstreamConfigs c) = ConfigsFile (Cfg_UpstreamConfigs c') ->
    Cluster (Cfg_UpstreamConfigs c) = Cluster (Cfg_UpstreamConfigs c') ->
    Metrics_StatsdConfig (Cfg_MetricsConfig c)
      = Metrics_StatsdConfig (Cfg_MetricsConfig c') ->
    Configuration_Validate c = Configuration_Validate c'.
Proof.
  intros c c' Hport Hty Hsl Hext Hint Hname Hsec Hcl Hfile Hclu Hst.
  unfold Configuration_Validate.
  rewrite !SessionConfig_Validate_cookie, !MetricsConfig_Validate_statsd.
  rewrite (CookieConfig_Validate_ext _ _ Hname Hsec), Hcl, Hst.
  assert (ServerConfig_Validate (Cfg_ServerConfig c)
            = ServerConfig_Validate (Cfg_ServerConfig c')) as ->.
  { unfold ServerConfig_Validate, TimeoutConfig_Validate. now rewrite Hport. }
  assert (ProviderConfig_Validate (Cfg_ProviderConfig c)
            = ProviderConfig_Validate (Cfg_ProviderConfig c')) as ->.
  { unfold ProviderConfig_Validate. now rewrite Hty, Hsl, Hext, Hint. }
  assert (UpstreamConfigs_Validate (Cfg_UpstreamConfigs c)
            = UpstreamConfigs_Validate (Cfg_UpstreamConfigs c')) as ->.
  { unfold UpstreamConfigs_Validate. now rewrite Hfile, Hclu. }
  reflexivity.
Qed.

(** ** What an accepted cookie section looks like *)

Lemma assemble_length (dbuf : list N) (dlen : nat) :
  List.length (base64.assemble dbuf dlen) = Nat.min (dlen - 1) 3.
Proof.
  unfold base64.assemble. now rewrite length_firstn.
Qed.

(** Four input bytes give at most three output bytes, at every point of the
    decoding loop. *)
Lemma decode_length (src : list ascii) :
  forall (si : Z) (j : nat) (dbuf : list N) (dst : list byte),
    (4 * List.length (fst (base64.decode src si j dbuf dst))
     <= 4 * List.length dst + 3 * (j + List.length src))%nat.
Proof.
  induction src as [ | c rest IH]; intros si j dbuf dst.
  - destruct j; simpl; lia.
  - cbn [base64.decode]. destruct (base64.decodeMap c) as [out | ].
    + destruct j as [ | [ | [ | [ | j]]]];
        try (etransitivity; [apply IH | cbn [List.length]; lia]).
      etransitivity; [apply IH | ].
      rewrite length_app, assemble_length. cbn [List.length]. lia.
    + destruct (base64.is_newline c).
      { etransitivity; [apply IH | cbn [List.length]; lia]. }
      destruct (negb (Ascii.eqb c base64.StdPadding));
        [cbn [fst List.length]; lia | ].
      destruct j as [ | [ | [ | j]]]; try (cbn [fst List.length]; lia).
      * destruct (base64.skip_newlines rest (si + 1)) as [src' si'].
        destruct src' as [ | c' rest']; [cbn [fst List.length]; lia | ].
        destruct (negb (Ascii.eqb c' base64.StdPadding));
          cbn [fst List.length]; [lia | ].
        rewrite length_app, assemble_length. cbn. lia.
      * cbn [fst]. rewrite length_app, assemble_length. cbn [List.length]. lia.
Qed.

Lemma list_ascii_length (s : string) :
  List.length (list_ascii_of_string s) = String.length s.
Proof.
  induction s as [ | c s IH]; [reflexivity | ]. simpl. now rewrite IH.
Qed.

Lemma DecodeString_length (s : string) :
  (4 * List.length (fst (base64.DecodeString s)) <= 3 * String.length s)%nat.
Proof.
  unfold base64.DecodeString.
  pose proof (decode_length (list_ascii_of_string s) 0 0 [] []) as H.
  rewrite list_ascii_length in H. cbn [List.length] in H. lia.
Qed.

(** X5: a cookie secret that passes validation is at least 43 bytes long,
    and at least 86 when it decodes to 64 bytes: the decoder yields at most
    three bytes for every four it reads. *)
Theorem accepted_secret_length :
  forall cc : CookieConfig,
    CookieConfig_Validate cc = None ->
    (43 <= String.length (Secret cc))%nat
    /\ (List.length (fst (base64.DecodeString (Secret cc))) = 64%nat ->
        (86 <= String.length (Secret cc))%nat).
Proof.
  intros cc Hv. apply CookieConfig_Validate_None in Hv.
  destruct Hv as (_ & (bs & Hd & Hl) & _).
  pose proof (DecodeString_length (Secret cc)) as Hb.
  rewrite Hd in *. cbn [fst] in *. destruct Hl; lia.
Qed.

Lemma skip_newlines_spec (src : list ascii) :
  forall (si : Z) (src' : list ascii) (si' : Z),
    base64.skip_newlines src si = (src', si') ->
    exists nl, src = (nl ++ src')%list
               /\ Forall (fun c => base64.is_newline c = true) nl.
Proof.
  induction src as [ | c rest IH]; intros si src' si' H.
  - injection H as <- <-. exists []. split; [reflexivity | constructor].
  - cbn [base64.skip_newlines] in H.
    destruct (base64.is_newline c) eqn:Hc.
    + destruct (IH _ _ _ H) as (nl & -> & Hnl).
      exists (c :: nl). split; [reflexivity | now constructor].
    + injection H as <- <-. exists []. split; [reflexivity | constructor].
Qed.

Lemma after_padding_None (src : list ascii) (si : Z) :
  base64.after_padding src si = None ->
  Forall (fun c => base64.is_newline c = true) src.
Proof.
  unfold base64.after_padding.
  destruct (base64.skip_newlines src si) as [src' si'] eqn:Hs.
  destruct src' as [ | c rest]; [ | discriminate].
  intros _. destruct (skip_newlines_spec _ _ _ _ Hs) as (nl & -> & Hnl).
  now rewrite app_nil_r.
Qed.

(** A decoding without error has read nothing but letters of the alphabet,
    padding and line breaks. *)
Lemma decode_legal (src : list ascii) :
  forall (si : Z) (j : nat) (dbuf : list N) (dst : list byte),
    snd (base64.decode src si j dbuf dst) = None ->
    Forall (fun c => base64.decodeMap c <> None
                     \/ base64.is_newline c = true
                     \/ c = base64.StdPadding) src.
Proof.
  induction src as [ | c rest IH]; intros si j dbuf dst H; [constructor | ].
  assert (forall l, Forall (fun c => base64.is_newline c = true) l ->
            Forall (fun c => base64.decodeMap c <> None
                             \/ base64.is_newline c = true
                             \/ c = base64.StdPadding) l) as Hnl.
  { intros l Hl. eapply Forall_impl; [ | exact Hl]. cbv beta. tauto. }
  cbn [base64.decode] in H.
  destruct (base64.decodeMap c) as [out | ] eqn:Hmap.
  - constructor; [left; congruence | ].
    destruct j as [ | [ | [ | [ | j]]]]; exact (IH _ _ _ _ H).
  - destruct (base64.is_newline c) eqn:Hc.
    { constructor; [tauto | exact (IH _ _ _ _ H)]. }
    destruct (Ascii.eqb_spec c base64.StdPadding) as [Hpad | Hpad];
      [ | discriminate].
    constructor; [tauto | ].
    destruct j as [ | [ | [ | j]]]; try discriminate.
    + destruct (base64.skip_newlines rest (si + 1)) as [src' si'] eqn:Hs.
      destruct src' as [ | c' rest']; [discriminate | ].
      destruct (Ascii.eqb_spec c' base64.StdPadding) as [Hpad' | Hpad'];
        [ | discriminate].
      cbn [negb snd] in H.
      destruct (skip_newlines_spec _ _ _ _ Hs) as (nl & -> & Hl).
      apply Forall_app. split; [now apply Hnl | ].
      constructor; [tauto | ]. apply Hnl. exact (after_padding_None _ _ H).
    + cbn [snd] in H. apply Hnl. exact (after_padding_None _ _ H).
Qed.

(** X6: a cookie secret that passes validation holds only letters of the
    standard base64 alphabet, padding signs, carriage returns and line
    feeds: a secret with any other byte in it (a space, or the [-] and [_]
    of the URL alphabet) is rejected. *)
Theorem accepted_secret_alphabet :
  forall (cc : CookieConfig) (c : ascii),
    CookieConfig_Validate cc = None ->
    In c (list_ascii_of_string (Secret cc)) ->
    base64.decodeMap c <> None
    \/ c = "010"%char \/ c = "013"%char \/ c = "="%char.
Proof.
  intros cc c Hv Hin. apply CookieConfig_Validate_None in Hv.
  destruct Hv as (_ & (bs & Hd & _) & _).
  unfold base64.DecodeString in Hd.
  pose proof (decode_legal (list_ascii_of_string (Secret cc)) 0 0 [] []) as H.
  rewrite Hd in H. specialize (H eq_refl).
  rewrite Forall_forall in H. destruct (H c Hin) as [Hm | [Hn | Hp]].
  - now left.
  - right. unfold base64.is_newline in Hn. apply orb_true_iff in Hn.
    destruct Hn as [Hn | Hn]; apply Ascii.eqb_eq in Hn; tauto.
  - right. right. right. exact Hp.
Qed.

Lemma IsTokenRune_printable (c : ascii) :
  http.IsTokenRune c = true ->
  (33 <= N_of_ascii c <= 126)%N
  /\ ~ In (N_of_ascii c)
          [34; 40; 41; 44; 47; 58; 59; 60; 61; 62; 63; 64; 91; 92; 93; 123; 125]%N.
Proof.
  destruct c as [[] [] [] [] [] [] [] []]; vm_compute; intros H;
    try discriminate H;
    (split; [split; discriminate | intuition discriminate]).
Qed.

(** X12: a cookie name that passes validation is not empty and holds only
    printable ASCII bytes other than the space and the separators
    [double quote ( ) , / : ; < = > ? @ [ \ ] { }]. *)
Theorem accepted_cookie_name :
  forall (cc : CookieConfig) (c : ascii),
    CookieConfig_Validate cc = None ->
    Name cc <> ""
    /\ (In c (list_ascii_of_string (Name cc)) ->
        (33 <= N_of_ascii c <= 126)%N
        /\ ~ In (N_of_ascii c)
                [34; 40; 41; 44; 47; 58; 59; 60; 61; 62; 63; 64; 91; 92; 93;
                 123; 125]%N).
Proof.
  intros cc c Hv. apply CookieConfig_Validate_None in Hv.
  destruct Hv as (_ & _ & Hname). unfold http.isCookieNameValid in Hname.
  destruct (String.eqb_spec (Name cc) "") as [ | Hne]; [discriminate | ].
  split; [exact Hne | ].
  intros Hin. apply IsTokenRune_printable.
  revert Hname Hin. generalize (Name cc) as name.
  induction name as [ | a name IH]; [contradiction | ].
  cbn [http.all_token list_ascii_of_string]. intros Hall [<- | Hin];
    apply andb_true_iff in Hall; destruct Hall as [Ha Hrest].
  - exact Ha.
  - now apply IH.
Qed.

(** ** Further properties of the loader *)

Lemma field_lookup_ext {T : Type} (dec : string -> Value -> T -> T * list string)
    (name fieldName : string) (m m' : list (string * Value)) (cur : T) :
  lookup_field m fieldName = lookup_field m' fieldName ->
  field dec name fieldName m cur = field dec name fieldName m' cur.
Proof.
  intros H. unfold field. now rewrite H.
Qed.

Lemma LoadConfig_fst (src : Source) :
  conf_Load src = None ->
  fst (LoadConfig src)
    = fst (decode_Configuration "" (conf_Map src) (DefaultProxyConfig tt)).
Proof.
  intros H. unfold LoadConfig. rewrite H. apply Decode_fst.
Qed.

(** X14: each section of the loaded configuration is decided by the entry
    of the source under that section's key alone: two sources that load and
    agree on that entry give the same section, whatever else they hold. *)
Theorem LoadConfig_section_independence :
  forall src src' : Source,
    conf_Load src = None -> conf_Load src' = None ->
    let m := conf_Map src in
    let m' := conf_Map src' in
    let c := fst (LoadConfig src) in
    let c' := fst (LoadConfig src') in
    (lookup_field m "server" = lookup_field m' "server" ->
     Cfg_ServerConfig c = Cfg_ServerConfig c')
    /\ (lookup_field m "provider" = lookup_field m' "provider" ->
        Cfg_ProviderConfig c = Cfg_ProviderConfig c')
    /\ (lookup_field m "client" = lookup_field m' "client" ->
        Cfg_ClientConfig c = Cfg_ClientConfig c')
    /\ (lookup_field m "session" = lookup_field m' "session" ->
        Cfg_SessionConfig c = Cfg_SessionConfig c')
    /\ (lookup_field m "upstream" = lookup_field m' "upstream" ->
        Cfg_UpstreamConfigs c = Cfg_UpstreamConfigs c')
    /\ (lookup_field m "MetricsConfig" = lookup_field m' "MetricsConfig" ->
        Cfg_MetricsConfig c = Cfg_MetricsConfig c')
    /\ (lookup_field m "logging" = lookup_field m' "logging" ->
        Cfg_LoggingConfig c = Cfg_LoggingConfig c')
    /\ (lookup_field m "requestsigner" = lookup_field m' "requestsigner" ->
        Cfg_RequestSignerConfig c = Cfg_RequestSignerConfig c').
Proof.
  intros src src' Hl Hl' m m' c c'. subst c c'.
  rewrite !LoadConfig_fst by assumption. fold m m'.
  destruct (decode_Configuration_sections "" m (DefaultProxyConfig tt))
    as (H1 & H2 & H3 & H4 & H5 & H6 & H7 & H8).
  destruct (decode_Configuration_sections "" m' (DefaultProxyConfig tt))
    as (G1 & G2 & G3 & G4 & G5 & G6 & G7 & G8).
  cbv zeta in *.
  repeat split; intros E.
  - rewrite H1, G1. now rewrite (field_lookup_ext _ _ _ m m').
  - rewrite H2, G2. now rewrite (field_lookup_ext _ _ _ m m').
  - rewrite H3, G3. now rewrite (field_lookup_ext _ _ _ m m').
  - rewrite H4, G4. now rewrite (field_lookup_ext _ _ _ m m').
  - rewrite H5, G5. now rewrite (field_lookup_ext _ _ _ m m').
  - rewrite H6, G6. now rewrite (field_lookup_ext _ _ _ m m').
  - rewrite H7, G7. now rewrite (field_lookup_ext _ _ _ m m').
  - rewrite H8, G8. now rewrite (field_lookup_ext _ _ _ m m').
Qed.



Lemma field_struct_preserves {T A : Type} (P : T -> A)
    (fromMap : string -> list (string * Value) -> T -> T * list string) :
  (forall name m x, P (fst (fromMap name m x)) = P x) ->
  forall name fieldName m cur,
    P (fst (field (decodeStruct fromMap) name fieldName m cur)) = P cur.
Proof.
  intros H name fieldName m cur. unfold field.
  destruct (lookup_field m fieldName) as [v | ]; [ | reflexivity].
  destruct v; cbn [decodeStruct fst]; auto.
Qed.

Lemma decode_CookieConfig_decodedSecret name m (cc : CookieConfig) :
  decodedSecret (fst (decode_CookieConfig name m cc)) = decodedSecret cc.
Proof.
  unfold decode_CookieConfig.
  repeat match goal with
         | |- context [field ?d name ?f m ?x] =>
             let r := fresh "r" in
             remember (field d name f m x) as r; destruct r
         end.
  reflexivity.
Qed.

Lemma decode_SessionConfig_decodedSecret name m (sc : SessionConfig) :
  decodedSecret (Session_CookieConfig (fst (decode_SessionConfig name m sc)))
    = decodedSecret (Session_CookieConfig sc).
Proof.
  unfold decode_SessionConfig.
  pose proof (field_struct_preserves decodedSecret decode_CookieConfig
                decode_CookieConfig_decodedSecret name "cookie" m
                (Session_CookieConfig sc)) as H.
  destruct (field (decodeStruct decode_CookieConfig) name "cookie" m
              (Session_CookieConfig sc)) as [ck e1].
  destruct (field (decodeStruct decode_TTLConfig) name "ttl" m
              (Session_TTLConfig sc)) as [t e2].
  exact H.
Qed.

Lemma decode_UpstreamConfigs_unexported name m (uc : UpstreamConfigs) :
  testTemplateVars (fst (decode_UpstreamConfigs name m uc)) = testTemplateVars uc
  /\ upstreamConfigs (fst (decode_UpstreamConfigs name m uc)) = upstreamConfigs uc.
Proof.
  unfold decode_UpstreamConfigs.
  repeat match goal with
         | |- context [field ?d name ?f m ?x] =>
             let r := fresh "r" in
             remember (field d name f m x) as r; destruct r
         end.
  split; reflexivity.
Qed.

(** X13: no source can set the unexported fields: in the configuration
    [LoadConfig] returns, with or without error, [decodedSecret],
    [testTemplateVars] and [upstreamConfigs] are nil, as in the defaults. *)
Theorem LoadConfig_keeps_unexported :
  forall src : Source,
    let c := fst (LoadConfig src) in
    decodedSecret (Session_CookieConfig (Cfg_SessionConfig c)) = None
    /\ testTemplateVars (Cfg_UpstreamConfigs c) = None
    /\ upstreamConfigs (Cfg_UpstreamConfigs c) = None.
Proof.
  intros src c. subst c.
  destruct (conf_Load src) as [err | ] eqn:Hl.
  - unfold LoadConfig. rewrite Hl. repeat split.
  - rewrite LoadConfig_fst by assumption.
    destruct (decode_Configuration_sections "" (conf_Map src)
                (DefaultProxyConfig tt))
      as (_ & _ & _ & H4 & H5 & _).
    cbv zeta in H4, H5. rewrite H4, H5.
    split; [ | split].
    + now rewrite (field_struct_preserves
                     (fun sc => decodedSecret (Session_CookieConfig sc))
                     decode_SessionConfig decode_SessionConfig_decodedSecret).
    + now rewrite (field_struct_preserves testTemplateVars
                     decode_UpstreamConfigs
                     (fun n m x => proj1 (decode_UpstreamConfigs_unexported n m x))).
    + now rewrite (field_struct_preserves upstreamConfigs
                     decode_UpstreamConfigs
                     (fun n m x => proj2 (decode_UpstreamConfigs_unexported n m x))).
Qed.

Lemma lookup_field_skip (m1 m2 : list (string * Value)) (k : string) (v : Value)
    (fieldName : string) :
  String.eqb k fieldName || strings_EqualFold k fieldName = false ->
  lookup_field (m1 ++ (k, v) :: m2) fieldName = lookup_field (m1 ++ m2) fieldName.
Proof.
  intros H. apply orb_false_elim in H. destruct H as [Hk Hf].
  unfold lookup_field.
  assert (MapIndex (m1 ++ (k, v) :: m2) fieldName = MapIndex (m1 ++ m2) fieldName)
    as ->.
  { induction m1 as [ | [k1 v1] m1 IH]; cbn [app MapIndex].
    - now rewrite Hk.
    - now rewrite IH. }
  assert (search_fold (m1 ++ (k, v) :: m2) fieldName
            = search_fold (m1 ++ m2) fieldName) as ->.
  { induction m1 as [ | [k1 v1] m1 IH]; cbn [app search_fold].
    - now rewrite Hf.
    - now rewrite IH. }
  reflexivity.
Qed.

Lemma names_a_section_false (k fieldName : string) :
  names_a_section k = false -> In fieldName section_names ->
  String.eqb k fieldName || strings_EqualFold k fieldName = false.
Proof.
  intros H Hin. unfold names_a_section in H.
  destruct (String.eqb k fieldName || strings_EqualFold k fieldName) eqn:E;
    [ | reflexivity].
  rewrite <- H. symmetry. apply existsb_exists. now exists fieldName.
Qed.

(** X16: an entry of the source whose key names no section is ignored
    wherever it stands, also among entries that do set fields: [LoadConfig]
    returns the same configuration and the same error with and without
    it. *)
Theorem LoadConfig_ignores_unknown_key :
  forall (load : option error) (m1 m2 : list (string * Value))
         (k : string) (v : Value),
    names_a_section k = false ->
    LoadConfig {| conf_Load := load; conf_Map := m1 ++ (k, v) :: m2 |}
      = LoadConfig {| conf_Load := load; conf_Map := m1 ++ m2 |}.
Proof.
  intros load m1 m2 k v Hk. unfold LoadConfig. cbn [conf_Load conf_Map].
  destruct load as [err | ]; [reflexivity | ].
  unfold Decode, decode_Configuration.
  assert (forall fieldName, In fieldName section_names ->
            lookup_field (m1 ++ (k, v) :: m2) fieldName
              = lookup_field (m1 ++ m2) fieldName) as Hsame.
  { intros fieldName Hin. apply lookup_field_skip.
    now apply names_a_section_false. }
  rewrite !(field_lookup_ext _ _ _ (m1 ++ (k, v) :: m2) (m1 ++ m2))
    by (apply Hsame; cbn; tauto).
  reflexivity.
Qed.

End Properties.

(** * The properties on the configurations of the test-suite

    From here on the externals are those of [plain]. *)

#[local] Existing Instance plain.externals.

(** The passing configuration of [TestConfigValidate] validates. *)
Example passing_configuration_validates :
  Configuration_Validate tests.passing = None.
Proof.
  vm_compute. reflexivity.
Qed.

(** The test vectors of RFC 4648, and inputs the decoder rejects. *)
Example DecodeString_vectors :
  base64.DecodeString "Zm9vYmFy"
    = (["f"; "o"; "o"; "b"; "a"; "r"]%byte, None)
  /\ base64.DecodeString "Zm9vYg==" = (["f"; "o"; "o"; "b"]%byte, None)
  /\ base64.DecodeString "Zg==" = (["f"]%byte, None)
  /\ base64.DecodeString "" = ([], None)
  /\ snd (base64.DecodeString "Zg=") = Some (base64.CorruptInput 3)
  /\ snd (base64.DecodeString "Zm9vY") = Some (base64.CorruptInput 4)
  /\ List.length (fst (base64.DecodeString tests.secret32)) = 32%nat
  /\ snd (base64.DecodeString tests.secret32) = None.
Proof.
  repeat split; vm_compute; reflexivity.
Qed.

Example isCookieNameValid_names :
  http.isCookieNameValid "_sso_proxy" = true
  /\ http.isCookieNameValid "bad name" = false
  /\ http.isCookieNameValid "" = false.
Proof.
  repeat split.
Qed.

(** [TestEnvironmentOverridesConfiguration]: one key overrides one field,
    and a duration is read from its literal. *)
Example LoadConfig_overrides :
  snd (LoadConfig tests.cookie_name_source) = None
  /\ Name (Session_CookieConfig
             (Cfg_SessionConfig (fst (LoadConfig tests.cookie_name_source))))
     = "foo_cookie_name"
  /\ snd (LoadConfig tests.timeouts_source) = None
  /\ Server_TimeoutConfig (Cfg_ServerConfig (fst (LoadConfig tests.timeouts_source)))
     = {| Write := 60 * time.Second; Read := 60 * time.Second;
          Shutdown := 30 * time.Second |}.
Proof.
  repeat split; vm_compute; reflexivity.
Qed.

(** C1: with every section before it valid, a client section without an id
    is reported under the session label, not under a client one. *)
Theorem client_failure_labelled_session :
  Configuration_Validate tests.missing_client_id
    = Some "invalid session config: no client.id configured".
Proof.
  vm_compute. reflexivity.
Qed.

(** Witness of C2: the test "missing server.port configuration". *)
Lemma Validate_zero_port_witness :
  Configuration_Validate tests.missing_port
    = Some "invalid server config: no server.port configured".
Proof.
  exact (proj1 (Validate_zero_port (Ext := plain.externals)
                  tests.missing_port eq_refl)).
Defined.

(** Witness of C3: an empty secret, a secret with a space in it, and the
    sixteen-byte secret. *)
Lemma CookieConfig_Validate_secret_witness :
  CookieConfig_Validate (tests.cookie "_sso_proxy" "")
    = Some "no cookie.secret configured"
  /\ CookieConfig_Validate (tests.cookie "_sso_proxy" "not base64")
     = Some ("invalid cookie.secret configured; expected base64-encoded bytes, as from `openssl rand 32 -base64`: "
               ++ plain.Quote "illegal base64 data at input byte 3")
  /\ CookieConfig_Validate (tests.cookie "_sso_proxy" tests.secret16)
     = Some "Invalid value for cookie.secret; must decode to 32 or 64 bytes, but decoded to 16 bytes".
Proof.
  split; [ | split].
  - exact (proj1 (CookieConfig_Validate_secret (Ext := plain.externals)
                    (tests.cookie "_sso_proxy" "")) eq_refl).
  - destruct (CookieConfig_Validate_secret (Ext := plain.externals)
                (tests.cookie "_sso_proxy" "not base64")) as (_ & H & _).
    refine (H [] (base64.CorruptInput 3) _ eq_refl). discriminate.
  - destruct (CookieConfig_Validate_secret (Ext := plain.externals)
                (tests.cookie "_sso_proxy" tests.secret16)) as (_ & _ & H & _).
    refine (proj1 (H (fst (base64.DecodeString tests.secret16)) _ eq_refl _ _)).
    + discriminate.
    + vm_compute. intros E. discriminate E.
    + vm_compute. intros E. discriminate E.
Defined.

(** Witness of C4: the URLs of the passing configuration, the URL
    "not-a-url", and the empty URL. *)
Lemma ProviderConfig_Validate_urls_witness :
  (exists external internal,
     plain.Parse "https://sso-external.com" = inl external
     /\ plain.Parse "https://sso-internal.com" = inl internal
     /\ url.Scheme external <> "" /\ url.Host external <> ""
     /\ url.Scheme internal <> "" /\ url.Host internal <> "")
  /\ ProviderConfig_Validate (tests.provider "not-a-url")
     = Some "provider.url_external must include scheme and host"
  /\ ProviderConfig_Validate (tests.provider "")
     = Some ("invalid provider.url_external: " ++ plain.Quote "").
Proof.
  split; [ | split].
  - destruct (proj1 (ProviderConfig_Validate_urls (Ext := plain.externals)
                       (tests.provider "https://sso-external.com")) eq_refl)
      as (_ & _ & H).
    exact H.
  - destruct (proj2 (ProviderConfig_Validate_urls (Ext := plain.externals)
                       (tests.provider "not-a-url")))
      as (_ & H & _); [discriminate | discriminate | ].
    refine (proj1 (H _ _ eq_refl (or_introl eq_refl))). discriminate.
  - destruct (proj2 (ProviderConfig_Validate_urls (Ext := plain.externals)
                       (tests.provider "")))
      as (H & _); [discriminate | discriminate | ].
    exact (H eq_refl).
Defined.

(** Witness of C9: the cookie section of the passing configuration. *)
Lemma CookieConfig_Validate_keeps_caller_witness :
  decodedSecret
    (fst (CookieConfig_Validate_body (tests.cookie "_sso_proxy" tests.secret32)))
    = Some (fst (base64.DecodeString tests.secret32))
  /\ decodedSecret
       (fst (call_on_value CookieConfig_Validate_body
               (tests.cookie "_sso_proxy" tests.secret32)))
     = None.
Proof.
  destruct (CookieConfig_Validate_keeps_caller (Ext := plain.externals)
              (tests.cookie "_sso_proxy" tests.secret32)) as (_ & _ & H).
  refine (H (fst (base64.DecodeString tests.secret32)) _ eq_refl _).
  - discriminate.
  - left. vm_compute. reflexivity.
Defined.

(** Witness of C10: a sixteen-byte secret under a valid and under an invalid
    name, and an invalid name with the 32-byte secret. *)
Lemma CookieConfig_Validate_secret_first_witness :
  CookieConfig_Validate (tests.cookie "bad name" tests.secret16)
    = CookieConfig_Validate (tests.cookie "_sso_proxy" tests.secret16)
  /\ exists bs, base64.DecodeString tests.secret32 = (bs, None)
       /\ (List.length bs = 32%nat \/ List.length bs = 64%nat).
Proof.
  split.
  - destruct (CookieConfig_Validate_secret_first (Ext := plain.externals)
                (tests.cookie "_sso_proxy" tests.secret16)) as (H & _).
    refine (proj1 (H (tests.cookie "bad name" tests.secret16) eq_refl _)).
    right. right. exists (fst (base64.DecodeString tests.secret16)).
    split; [reflexivity | ].
    split; vm_compute; intros E; discriminate E.
  - destruct (CookieConfig_Validate_secret_first (Ext := plain.externals)
                (tests.cookie "bad name" tests.secret32)) as (_ & H).
    exact (proj2 (H eq_refl)).
Defined.

(** Counterexample to C6: the decoder sets the provider slug, then fails on
    the client section; [LoadConfig] returns the error with the overridden
    configuration, not with the defaults. *)
Lemma LoadConfig_failure_not_default :
  snd (LoadConfig tests.failing_source)
    = Some (DecodeError ["'client' expected a map, got 'string'"])
  /\ ProviderSlug (Cfg_ProviderConfig (fst (LoadConfig tests.failing_source)))
     = "foo-slug"
  /\ fst (LoadConfig tests.failing_source) <> DefaultProxyConfig tt.
Proof.
  split; [vm_compute; reflexivity | split; [vm_compute; reflexivity | ]].
  intros H.
  apply (f_equal (fun c => ProviderSlug (Cfg_ProviderConfig c))) in H.
  vm_compute in H. discriminate H.
Qed.

(** Witness of C6: an unreadable source, and the failing source, whose
    server section is left at its default. *)
Lemma LoadConfig_failure_state_witness :
  LoadConfig tests.unreadable_source
    = (DefaultProxyConfig tt, Some (SourceError "source: read failed"))
  /\ Cfg_ServerConfig (fst (LoadConfig tests.failing_source))
     = Cfg_ServerConfig (DefaultProxyConfig tt).
Proof.
  split.
  - exact (proj1 (LoadConfig_failure_state (Ext := plain.externals)
                    tests.unreadable_source
                    (SourceError "source: read failed") eq_refl)
             "source: read failed" eq_refl).
  - destruct (proj2 (LoadConfig_failure_state (Ext := plain.externals)
                       tests.failing_source
                       (DecodeError ["'client' expected a map, got 'string'"])
                       eq_refl) eq_refl)
      as (_ & _ & _ & H & _).
    exact (H eq_refl).
Defined.

(** Witness of C8: a source with an unknown key below [server], the source
    without keys, and a source with the keys of a process environment and a
    [metrics] key. *)
Lemma LoadConfig_no_recognized_key_witness :
  LoadConfig tests.foreign_source = (DefaultProxyConfig tt, None)
  /\ LoadConfig tests.empty_source = (DefaultProxyConfig tt, None)
  /\ LoadConfig tests.ambient_source = (DefaultProxyConfig tt, None).
Proof.
  split; [ | split].
  - refine (proj1 (LoadConfig_no_recognized_key (Ext := plain.externals)
                     tests.foreign_source eq_refl) _).
    vm_compute. reflexivity.
  - exact (proj1 (proj2 (LoadConfig_no_recognized_key (Ext := plain.externals)
                           tests.empty_source eq_refl)) eq_refl).
  - refine (proj2 (proj2 (LoadConfig_no_recognized_key (Ext := plain.externals)
                            tests.ambient_source eq_refl)) _).
    intros k v [E | [E | [E | []]]]; injection E as <- <-; reflexivity.
Defined.

(** * Witnesses of the further properties *)

(** Witness of X1: the variant of the passing configuration. *)
Lemma Configuration_Validate_success_witness :
  Configuration_Validate tests.quiet = None.
Proof.
  apply (proj2 (Configuration_Validate_success (Ext := plain.externals)
                  tests.quiet)).
  split; [discriminate | ].
  split; [vm_compute; reflexivity | ].
  split; [vm_compute; reflexivity | ].
  split; [discriminate | ].
  split; [discriminate | ].
  split; [left; reflexivity | ].
  split; [discriminate | ].
  split; discriminate.
Defined.

(** Witness of X2: the defaults fail in the provider section. *)
Lemma Configuration_Validate_first_failure_witness :
  Configuration_Validate (DefaultProxyConfig tt)
    = Some ("invalid provider config: invalid provider.url_external: "
              ++ plain.Quote "").
Proof.
  apply (proj2 (Configuration_Validate_first_failure (Ext := plain.externals)
                  (DefaultProxyConfig tt) _)).
  right. left. split; [reflexivity | ].
  exists ("invalid provider.url_external: " ++ plain.Quote "").
  split; reflexivity.
Defined.

(** Witness of X3: the passing configuration and its variant. *)
Lemma Configuration_Validate_frame_witness :
  Configuration_Validate tests.quiet = Configuration_Validate tests.passing.
Proof.
  apply (Configuration_Validate_frame (Ext := plain.externals)
           tests.quiet tests.passing); reflexivity.
Defined.

(** Witness of X4: the cookie section of the passing configuration. *)
Lemma CookieConfig_Validate_success_witness :
  CookieConfig_Validate (tests.cookie "_sso_proxy" tests.secret32) = None.
Proof.
  apply (proj2 (CookieConfig_Validate_success (Ext := plain.externals)
                  (tests.cookie "_sso_proxy" tests.secret32))).
  split; [discriminate | ].
  split.
  - exists (fst (base64.DecodeString tests.secret32)).
    split; [reflexivity | left; vm_compute; reflexivity].
  - split; [discriminate | reflexivity].
Defined.

(** Witness of X5: the 44 bytes of the passing secret. *)
Lemma accepted_secret_length_witness :
  (43 <= String.length tests.secret32)%nat.
Proof.
  refine (proj1 (accepted_secret_length (Ext := plain.externals)
                   (tests.cookie "_sso_proxy" tests.secret32) _)).
  vm_compute. reflexivity.
Defined.

(** Witness of X6: the first byte of the passing secret. *)
Lemma accepted_secret_alphabet_witness :
  base64.decodeMap "S" <> None
  \/ "S"%char = "010"%char \/ "S"%char = "013"%char \/ "S"%char = "="%char.
Proof.
  refine (accepted_secret_alphabet (Ext := plain.externals)
            (tests.cookie "_sso_proxy" tests.secret32) "S" _ _).
  - vm_compute. reflexivity.
  - left. reflexivity.
Defined.

(** Witness of X7: the provider section of the passing configuration. *)
Lemma ProviderConfig_Validate_success_witness :
  ProviderConfig_Validate (tests.provider "https://sso-external.com") = None.
Proof.
  apply (proj2 (ProviderConfig_Validate_success (Ext := plain.externals)
                  (tests.provider "https://sso-external.com"))).
  repeat (split; [discriminate | ]).
  eexists. eexists.
  split; [reflexivity | ]. split; [reflexivity | ].
  repeat split; discriminate.
Defined.

(** Witness of X8: a provider section without type, and a URL without
    scheme before its colon in either place. *)
Lemma ProviderConfig_Validate_order_witness :
  ProviderConfig_Validate (Cfg_ProviderConfig tests.missing_port)
    = Some ("invalid provider.type: " ++ plain.Quote "")
  /\ ProviderConfig_Validate
       (tests.provider_urls ":foo" "https://sso-internal.com")
     = Some "parse :foo: missing protocol scheme"
  /\ ProviderConfig_Validate
       (tests.provider_urls "https://sso-external.com" ":foo")
     = Some ("invalid pc.url_internal configured: "
               ++ plain.Quote "parse :foo: missing protocol scheme").
Proof.
  split; [ | split].
  - exact (proj1 (ProviderConfig_Validate_order (Ext := plain.externals)
                    (Cfg_ProviderConfig tests.missing_port)) eq_refl).
  - destruct (ProviderConfig_Validate_order (Ext := plain.externals)
                (tests.provider_urls ":foo" "https://sso-internal.com"))
      as (_ & _ & H & _).
    refine (H _ _ _ _ eq_refl); discriminate.
  - destruct (ProviderConfig_Validate_order (Ext := plain.externals)
                (tests.provider_urls "https://sso-external.com" ":foo"))
      as (_ & _ & _ & H).
    refine (H _ _ _ _ _ eq_refl _ _ _ eq_refl); discriminate.
Defined.

(** Witness of X9: no id, no secret, and both. *)
Lemma ClientConfig_Validate_cases_witness :
  ClientConfig_Validate (tests.client "" "") = Some "no client.id configured"
  /\ ClientConfig_Validate (tests.client "foo-id" "")
     = Some "no client.secret configured"
  /\ ClientConfig_Validate (tests.client "foo-id" "bar-secret") = None.
Proof.
  split; [ | split].
  - exact (proj1 (ClientConfig_Validate_cases (tests.client "" "")) eq_refl).
  - destruct (ClientConfig_Validate_cases (tests.client "foo-id" ""))
      as (_ & H & _).
    refine (H _ eq_refl). discriminate.
  - destruct (ClientConfig_Validate_cases (tests.client "foo-id" "bar-secret"))
      as (_ & _ & H).
    apply (proj2 H). split; discriminate.
Defined.

(** Witness of X10: a path that does not open, no cluster, and a cluster
    without path. *)
Lemma UpstreamConfigs_Validate_cases_witness :
  UpstreamConfigs_Validate (tests.upstream "/etc/sso/upstreams.yml" "")
    = Some "invalid upstream.config filepath: open /etc/sso/upstreams.yml: no such file or directory"
  /\ UpstreamConfigs_Validate (tests.upstream "" "")
     = Some "no upstream.config cluster configured"
  /\ UpstreamConfigs_Validate (tests.upstream "" "foo-cluster") = None.
Proof.
  split; [ | split].
  - destruct (UpstreamConfigs_Validate_cases (Ext := plain.externals)
                (tests.upstream "/etc/sso/upstreams.yml" "")) as (H & _).
    refine (H _ _ eq_refl). discriminate.
  - destruct (UpstreamConfigs_Validate_cases (Ext := plain.externals)
                (tests.upstream "" "")) as (_ & H & _).
    exact (H (or_introl eq_refl) eq_refl).
  - destruct (UpstreamConfigs_Validate_cases (Ext := plain.externals)
                (tests.upstream "" "foo-cluster")) as (_ & _ & H).
    apply (proj2 H). split; [left; reflexivity | discriminate].
Defined.

(** Witness of X11: no host, no port, and both. *)
Lemma MetricsConfig_Validate_cases_witness :
  MetricsConfig_Validate (tests.metrics "" 0)
    = Some "invalid metrics.statsd config: no statsd.host configured"
  /\ MetricsConfig_Validate (tests.metrics "localhost" 0)
     = Some "invalid metrics.statsd config:  no statsd.port configured"
  /\ MetricsConfig_Validate (tests.metrics "localhost" 8125) = None.
Proof.
  split; [ | split].
  - exact (proj1 (MetricsConfig_Validate_cases (tests.metrics "" 0)) eq_refl).
  - destruct (MetricsConfig_Validate_cases (tests.metrics "localhost" 0))
      as (_ & H & _).
    refine (H _ eq_refl). discriminate.
  - destruct (MetricsConfig_Validate_cases (tests.metrics "localhost" 8125))
      as (_ & _ & H).
    apply (proj2 H). split; discriminate.
Defined.

(** Witness of X12: the first byte of the default cookie name. *)
Lemma accepted_cookie_name_witness :
  (33 <= N_of_ascii "_" <= 126)%N
  /\ ~ In (N_of_ascii "_")
          [34; 40; 41; 44; 47; 58; 59; 60; 61; 62; 63; 64; 91; 92; 93;
           123; 125]%N.
Proof.
  refine (proj2 (accepted_cookie_name (Ext := plain.externals)
                   (tests.cookie "_sso_proxy" tests.secret32) "_" _) _).
  - vm_compute. reflexivity.
  - left. reflexivity.
Defined.

(** Witness of X14: the same server entry, with and without a provider
    entry beside it. *)
Lemma LoadConfig_section_independence_witness :
  Cfg_ServerConfig
    (fst (LoadConfig {| conf_Load := None; conf_Map := tests.timeout_entries |}))
  = Cfg_ServerConfig
      (fst (LoadConfig {| conf_Load := None;
                          conf_Map := tests.slug_entries ++ tests.timeout_entries |})).
Proof.
  exact (proj1 (LoadConfig_section_independence (Ext := plain.externals)
                  {| conf_Load := None; conf_Map := tests.timeout_entries |}
                  {| conf_Load := None;
                     conf_Map := tests.slug_entries ++ tests.timeout_entries |}
                  eq_refl eq_refl) eq_refl).
Defined.


(** Witness of X16: a [metrics] entry between a provider and a server
    entry. *)
Lemma LoadConfig_ignores_unknown_key_witness :
  LoadConfig {| conf_Load := None;
                conf_Map := tests.slug_entries
                              ++ ("metrics", tests.statsd_entry)
                                   :: tests.timeout_entries |}
    = LoadConfig {| conf_Load := None;
                    conf_Map := tests.slug_entries ++ tests.timeout_entries |}.
Proof.
  apply (LoadConfig_ignores_unknown_key (Ext := plain.externals)).
  vm_compute. reflexivity.
Defined.
